(** * The gateway agent: terminal sessions, measurement codec, bootstrap

    A shallow embedding of three parts of the agent:

    - [Encoder]: the measurement codec used for every terminal output
      chunk (package [pkg/encoder]);
    - [Terminal]: the pty-backed terminal session with its countdown
      (package [terminal]);
    - [Bootstrap]: the retrieval of the initial configuration
      (package [pkg/bootstrap]).

    Go strings and byte slices are sequences of bytes; they are modelled
    by [string] (a list of 8-bit [ascii]) and [list Byte.byte].  A
    [time.Duration] is a 64-bit signed number of nanoseconds, modelled
    by [Z] with the wrap-around written out. *)

From Stdlib Require Import ZArith NArith List String Ascii Bool Lia.
From Stdlib Require Import Decimal DecimalString DecimalN DecimalFacts.
Import ListNotations.
Open Scope string_scope.

(** * Part I: the embedding *)

(** ** Machine integers *)

Module Int64.
Local Open Scope Z_scope.

Definition modulus : Z := 2 ^ 64.
Definition half : Z := 2 ^ 63.
Definition max_int : Z := half - 1.
Definition min_int : Z := - half.

(** The value of the 64-bit two's complement word whose bits are those
    of [z]. *)
Definition wrap (z : Z) : Z := (z + half) mod modulus - half.

Definition sub (a b : Z) : Z := wrap (a - b).
Definition mul (a b : Z) : Z := wrap (a * b).

Definition in_range (z : Z) : Prop := min_int <= z <= max_int.

End Int64.

(** ** A small option monad for the parsers *)

Definition obind {A B} (o : option A) (f : A -> option B) : option B :=
  match o with
  | Some a => f a
  | None => None
  end.

Notation "' p <- o ;; k" := (obind o (fun p => k))
  (at level 61, p pattern, o at next level, right associativity).

(** ** The measurement codec *)

Module Encoder.

(** Modelled from the spec: package [pkg/encoder] ([EncodeSenML]) and the
    record decoder it pairs with are not among the sources.  Section 4.1
    of the specification describes them: [Encode] builds a one-record
    sequence (base name, name, time, string value) and returns it in the
    wire format, an ordered array of record objects; [Decode] parses such
    a payload, treats absent fields as unset and fails only on payloads
    that are not structurally an array of objects.  The wire format is
    the JSON text of the examples of the specification, such as
    [[{"bn":"1:","n":"config","vs":"view"}]].  Numbers are kept as their
    decimal literal: floating point is not modelled. *)

Definition dquote : ascii := "034"%char.
Definition backslash : ascii := "\"%char.

(** *** Records *)

Record Record := mkRecord {
  baseName : string;
  name : string;
  time : option string;
  stringValue : option string;
  value : option string;
  boolValue : option bool;
  unit_ : option string;
  baseTime : option string;
  baseUnit : option string
}.

Definition emptyRecord : Record :=
  mkRecord "" "" None None None None None None None.

(** The effective key of a measurement: base name followed by name. *)
Definition effectiveKey (r : Record) : string := baseName r ++ name r.

(** The wall clock read by [Encode]: whole seconds since the epoch and
    the digits of the fraction of a second. *)
Record wallclock := mkClock {
  seconds : N;
  fraction : uint
}.

(** *** Writing *)

Definition hexdigit (n : N) : ascii :=
  if (n <? 10)%N then ascii_of_N (48 + n) else ascii_of_N (87 + n).

Definition is_control (c : ascii) : bool := (N_of_ascii c <? 32)%N.

Definition escape_char (c : ascii) : string :=
  if Ascii.eqb c dquote then String backslash (String dquote "")
  else if Ascii.eqb c backslash then String backslash (String backslash "")
  else if Ascii.eqb c "010" then String backslash "n"
  else if Ascii.eqb c "013" then String backslash "r"
  else if Ascii.eqb c "009" then String backslash "t"
  else if is_control c then
    String backslash
      (String "u" (String "0" (String "0"
         (String (hexdigit (N_of_ascii c / 16))
            (String (hexdigit (N_of_ascii c mod 16)) "")))))
  else String c "".

Fixpoint escape (s : string) : string :=
  match s with
  | EmptyString => ""
  | String c r => escape_char c ++ escape r
  end.

(** A string literal followed by [k]. *)
Definition quoted (s : string) (k : string) : string :=
  String dquote (escape s ++ String dquote k).

Definition format_fraction (f : uint) : string :=
  match f with
  | Nil => ""
  | _ => String "." (NilEmpty.string_of_uint f)
  end.

Definition format_time (now : wallclock) : string :=
  NilZero.string_of_uint (N.to_uint (seconds now)) ++
  format_fraction (fraction now).

(** One member of an object, followed by [k]. *)
Definition member_string (key val : string) (k : string) : string :=
  quoted key (String ":" (quoted val k)).

Definition member_number (key lit : string) (k : string) : string :=
  quoted key (String ":" (lit ++ k)).

(** Modelled from the spec: [Encode(id, name, value)] of the absent
    package [pkg/encoder]: a one-record array with base name [id], name
    [name], the current time and string value [value]. *)
Definition Encode (now : wallclock) (id name value : string) : string :=
  String "[" (String "{"
    (member_string "bn" id (String ","
      (member_string "n" name (String ","
        (member_number "t" (format_time now) (String ","
          (member_string "vs" value (String "}" (String "]" "")))))))))).

(** *** Reading *)

Inductive jvalue :=
| JString (s : string)
| JNumber (literal : string)
| JBool (b : bool)
| JNull.

Definition is_ws (c : ascii) : bool :=
  Ascii.eqb c " " || Ascii.eqb c "009" || Ascii.eqb c "010" || Ascii.eqb c "013".

Fixpoint skip_ws (s : string) : string :=
  match s with
  | String c r => if is_ws c then skip_ws r else s
  | EmptyString => s
  end.

Definition hexval (c : ascii) : option N :=
  let n := N_of_ascii c in
  if ((48 <=? n) && (n <=? 57))%N then Some (n - 48)%N
  else if ((97 <=? n) && (n <=? 102))%N then Some (n - 87)%N
  else if ((65 <=? n) && (n <=? 70))%N then Some (n - 55)%N
  else None.

Definition codepoint (a b c d : ascii) : option N :=
  ' x3 <- hexval a ;; ' x2 <- hexval b ;;
  ' x1 <- hexval c ;; ' x0 <- hexval d ;;
  Some (((x3 * 16 + x2) * 16 + x1) * 16 + x0)%N.

(** The UTF-8 bytes of a code point below 2^16. *)
Definition utf8 (cp : N) : string :=
  if (cp <? 128)%N then String (ascii_of_N cp) ""
  else if (cp <? 2048)%N then
    String (ascii_of_N (192 + cp / 64))
      (String (ascii_of_N (128 + cp mod 64)) "")
  else
    String (ascii_of_N (224 + cp / 4096))
      (String (ascii_of_N (128 + (cp / 64) mod 64))
         (String (ascii_of_N (128 + cp mod 64)) "")).

Definition unescape (e : ascii) : option ascii :=
  if Ascii.eqb e dquote then Some dquote
  else if Ascii.eqb e backslash then Some backslash
  else if Ascii.eqb e "/" then Some "/"%char
  else if Ascii.eqb e "b" then Some "008"%char
  else if Ascii.eqb e "f" then Some "012"%char
  else if Ascii.eqb e "n" then Some "010"%char
  else if Ascii.eqb e "r" then Some "013"%char
  else if Ascii.eqb e "t" then Some "009"%char
  else None.

(** The characters of a string literal, after its opening quote: the
    decoded text and what follows the closing quote. *)
Fixpoint parse_chars (s : string) : option (string * string) :=
  match s with
  | EmptyString => None
  | String c r =>
    if Ascii.eqb c dquote then Some ("", r)
    else if Ascii.eqb c backslash then
      match r with
      | EmptyString => None
      | String e r1 =>
        match unescape e with
        | Some b =>
          match parse_chars r1 with
          | Some (v, rest) => Some (String b v, rest)
          | None => None
          end
        | None =>
          if Ascii.eqb e "u" then
            match r1 with
            | String h3 (String h2 (String h1 (String h0 r2))) =>
              match codepoint h3 h2 h1 h0 with
              | Some cp =>
                match parse_chars r2 with
                | Some (v, rest) => Some (utf8 cp ++ v, rest)
                | None => None
                end
              | None => None
              end
            | _ => None
            end
          else None
        end
      end
    else if is_control c then None
    else
      match parse_chars r with
      | Some (v, rest) => Some (String c v, rest)
      | None => None
      end
  end.

Definition is_digit (c : ascii) : bool :=
  ((48 <=? N_of_ascii c) && (N_of_ascii c <=? 57))%N.

(** The longest prefix of digits, and the rest. *)
Fixpoint span_digits (s : string) : string * string :=
  match s with
  | String c r =>
    if is_digit c then let (d, rest) := span_digits r in (String c d, rest)
    else ("", s)
  | EmptyString => ("", "")
  end.

Definition scan_sign (s : string) : string * string :=
  match s with
  | String "-" r => ("-", r)
  | _ => ("", s)
  end.

(** [int = 0 | [1-9][0-9]*] *)
Definition scan_int (s : string) : option (string * string) :=
  let (d, rest) := span_digits s in
  match d with
  | EmptyString => None
  | String "0" (String _ _) => None
  | _ => Some (d, rest)
  end.

(** [frac = . [0-9]+], optional *)
Definition scan_frac (s : string) : option (string * string) :=
  match s with
  | String "." r =>
    let (d, rest) := span_digits r in
    match d with
    | EmptyString => None
    | _ => Some (String "." d, rest)
    end
  | _ => Some ("", s)
  end.

(** [exp = [eE][+-]?[0-9]+], optional *)
Definition scan_exp (s : string) : option (string * string) :=
  match s with
  | String e r =>
    if Ascii.eqb e "e" || Ascii.eqb e "E" then
      let (sg, r1) :=
        match r with
        | String "+" r1 => ("+", r1)
        | String "-" r1 => ("-", r1)
        | _ => ("", r)
        end in
      let (d, rest) := span_digits r1 in
      match d with
      | EmptyString => None
      | _ => Some (String e (sg ++ d), rest)
      end
    else Some ("", s)
  | EmptyString => Some ("", s)
  end.

Definition scan_number (s : string) : option (string * string) :=
  let (sg, s1) := scan_sign s in
  ' (ip, s2) <- scan_int s1 ;;
  ' (fp, s3) <- scan_frac s2 ;;
  ' (ep, s4) <- scan_exp s3 ;;
  Some (sg ++ ip ++ fp ++ ep, s4).

(** [expect w s]: [s] without its prefix [w]. *)
Fixpoint expect (w s : string) : option string :=
  match w with
  | EmptyString => Some s
  | String c w' =>
    match s with
    | String d s' => if Ascii.eqb c d then expect w' s' else None
    | EmptyString => None
    end
  end.

(** A scalar value; the records of the format are flat. *)
Definition parse_value (s : string) : option (jvalue * string) :=
  match s with
  | EmptyString => None
  | String c r =>
    if Ascii.eqb c dquote then
      ' (v, rest) <- parse_chars r ;; Some (JString v, rest)
    else if Ascii.eqb c "t" then
      ' rest <- expect "rue" r ;; Some (JBool true, rest)
    else if Ascii.eqb c "f" then
      ' rest <- expect "alse" r ;; Some (JBool false, rest)
    else if Ascii.eqb c "n" then
      ' rest <- expect "ull" r ;; Some (JNull, rest)
    else
      ' (lit, rest) <- scan_number s ;; Some (JNumber lit, rest)
  end.

Definition object := list (string * jvalue).

(** The members of an object from the opening quote of a key up to and
    including the closing brace. *)
Fixpoint parse_members (fuel : nat) (s : string) : option (object * string) :=
  match fuel with
  | O => None
  | S fuel' =>
    match s with
    | String c r =>
      if Ascii.eqb c dquote then
        ' (k, s1) <- parse_chars r ;;
        match skip_ws s1 with
        | String ":" s2 =>
          ' (v, s3) <- parse_value (skip_ws s2) ;;
          match skip_ws s3 with
          | String "," s4 =>
            ' (ms, s5) <- parse_members fuel' (skip_ws s4) ;;
            Some ((k, v) :: ms, s5)
          | String "}" s4 => Some ([(k, v)], s4)
          | _ => None
          end
        | _ => None
        end
      else None
    | EmptyString => None
    end
  end.

Definition parse_object (s : string) : option (object * string) :=
  match s with
  | String "{" r =>
    let r1 := skip_ws r in
    match expect "}" r1 with
    | Some r2 => Some ([], r2)
    | None => parse_members (String.length r1) r1
    end
  | _ => None
  end.

(** The elements of the array from the first object up to and including
    the closing bracket. *)
Fixpoint parse_elements (fuel : nat) (s : string)
  : option (list object * string) :=
  match fuel with
  | O => None
  | S fuel' =>
    ' (o, s1) <- parse_object s ;;
    match skip_ws s1 with
    | String "," s2 =>
      ' (os, s3) <- parse_elements fuel' (skip_ws s2) ;;
      Some (o :: os, s3)
    | String "]" s2 => Some ([o], s2)
    | _ => None
    end
  end.

Definition parse_array (s : string) : option (list object) :=
  match skip_ws s with
  | String "[" r =>
    let r1 := skip_ws r in
    ' (os, rest) <-
      match expect "]" r1 with
      | Some r2 => Some ([], r2)
      | None => parse_elements (String.length r1) r1
      end ;;
    match skip_ws rest with
    | EmptyString => Some os
    | _ => None
    end
  | _ => None
  end.

(** One member stored into the record under construction; a member of
    the wrong type is an error, an unknown member and [null] are
    skipped. *)
Definition set_field (r : Record) (m : string * jvalue) : option Record :=
  let (k, v) := m in
  match v with
  | JNull => Some r
  | _ =>
    if String.eqb k "bn" then
      match v with
      | JString s =>
        Some (mkRecord s (name r) (time r) (stringValue r) (value r)
                (boolValue r) (unit_ r) (baseTime r) (baseUnit r))
      | _ => None
      end
    else if String.eqb k "n" then
      match v with
      | JString s =>
        Some (mkRecord (baseName r) s (time r) (stringValue r) (value r)
                (boolValue r) (unit_ r) (baseTime r) (baseUnit r))
      | _ => None
      end
    else if String.eqb k "t" then
      match v with
      | JNumber l =>
        Some (mkRecord (baseName r) (name r) (Some l) (stringValue r)
                (value r) (boolValue r) (unit_ r) (baseTime r) (baseUnit r))
      | _ => None
      end
    else if String.eqb k "vs" then
      match v with
      | JString s =>
        Some (mkRecord (baseName r) (name r) (time r) (Some s) (value r)
                (boolValue r) (unit_ r) (baseTime r) (baseUnit r))
      | _ => None
      end
    else if String.eqb k "v" then
      match v with
      | JNumber l =>
        Some (mkRecord (baseName r) (name r) (time r) (stringValue r)
                (Some l) (boolValue r) (unit_ r) (baseTime r) (baseUnit r))
      | _ => None
      end
    else if String.eqb k "vb" then
      match v with
      | JBool b =>
        Some (mkRecord (baseName r) (name r) (time r) (stringValue r)
                (value r) (Some b) (unit_ r) (baseTime r) (baseUnit r))
      | _ => None
      end
    else if String.eqb k "u" then
      match v with
      | JString s =>
        Some (mkRecord (baseName r) (name r) (time r) (stringValue r)
                (value r) (boolValue r) (Some s) (baseTime r) (baseUnit r))
      | _ => None
      end
    else if String.eqb k "bt" then
      match v with
      | JNumber l =>
        Some (mkRecord (baseName r) (name r) (time r) (stringValue r)
                (value r) (boolValue r) (unit_ r) (Some l) (baseUnit r))
      | _ => None
      end
    else if String.eqb k "bu" then
      match v with
      | JString s =>
        Some (mkRecord (baseName r) (name r) (time r) (stringValue r)
                (value r) (boolValue r) (unit_ r) (baseTime r) (Some s))
      | _ => None
      end
    else Some r
  end.

Fixpoint record_of (ms : object) (r : Record) : option Record :=
  match ms with
  | [] => Some r
  | m :: ms' => ' r' <- set_field r m ;; record_of ms' r'
  end.

Fixpoint records_of (os : list object) : option (list Record) :=
  match os with
  | [] => Some []
  | o :: os' =>
    ' r <- record_of o emptyRecord ;;
    ' rs <- records_of os' ;;
    Some (r :: rs)
  end.

Inductive decodeError := ErrDecode.

(** Modelled from the spec: [Decode(payload)], the decoder that pairs
    with [Encode]: the records of the payload, or a decode error. *)
Definition Decode (payload : string) : decodeError + list Record :=
  match parse_array payload with
  | Some os =>
    match records_of os with
    | Some rs => inr rs
    | None => inl ErrDecode
    end
  | None => inl ErrDecode
  end.

End Encoder.

(** ** The terminal session *)

Module Terminal.
Local Open Scope Z_scope.

(** An error value, with the text its [Error()] method returns. *)
Inductive error := Err (msg : string).

Definition Error (e : error) : string := let (m) := e in m.

(** [errors.New] *)
Definition errorsNew (msg : string) : error := Err msg.

Definition terminal : string := "term".

(** [time.Duration(1 * time.Second)], in nanoseconds *)
Definition second : Z := 1 * 1000000000.

Definition itoa (n : nat) : string := NilZero.string_of_uint (Nat.to_uint n).

(** *** The environment of a session *)

(** The pseudo-terminal as the operating system holds it: the bytes its
    input side has accepted so far, and how many more it accepts before
    a write fails ([None]: no limit). *)
Record pty := mkPty {
  input : list Byte.byte;
  room : option nat
}.

(** [os.File.Write]: the count of bytes written, an error when fewer
    than all were written.  A nil file is an invalid argument. *)
Definition File_Write (f : option pty) (b : list Byte.byte)
  : nat * option error * option pty :=
  match f with
  | None => (O, Some (Err "invalid argument"), None)
  | Some h =>
    match room h with
    | None => (List.length b, None, Some (mkPty (input h ++ b)%list None))
    | Some k =>
      if (List.length b <=? k)%nat then
        (List.length b, None, Some (mkPty (input h ++ b)%list (Some (k - List.length b)%nat)))
      else
        (k, Some (Err "input/output error"),
         Some (mkPty (input h ++ firstn k b)%list (Some O)))
    end
  end.

(** [io.Copy(dst, bytes.NewReader(p))]: the reader hands all its bytes
    to the destination in one write, and none when it is empty. *)
Definition io_Copy_to_file (dst : option pty) (p : list Byte.byte)
  : nat * option error * option pty :=
  match p with
  | [] => (O, None, dst)
  | _ => File_Write dst p
  end.

(** A [time.Ticker]: it delivers ticks while it runs, and none after
    [Stop]. *)
Inductive ticker := Running | Stopped.

(** What a session does that others can observe. *)
Inductive event :=
| Done                                  (* a value sent on [t.done] *)
| Publish (channel payload : string)    (* a call of [t.publish] *)
| Log (level msg : string).

(** *** The session *)

Record term := mkTerm {
  uuid : string;
  ptmx : option pty;
  topic : string;
  timeout : Z;
  resetTimeout : Z;
  timer : option ticker;
  publish : string -> string -> option error
}.

Definition set_ptmx (t : term) (f : option pty) : term :=
  mkTerm (uuid t) f (topic t) (timeout t) (resetTimeout t) (timer t) (publish t).

Definition set_timeout (t : term) (d : Z) : term :=
  mkTerm (uuid t) (ptmx t) (topic t) d (resetTimeout t) (timer t) (publish t).

Definition set_timer (t : term) (k : option ticker) : term :=
  mkTerm (uuid t) (ptmx t) (topic t) (timeout t) (resetTimeout t) k (publish t).

(** Both counter operations hold [t.mu] from entry to exit, so each is
    one atomic step on the state.  The send on [t.done] is recorded as
    the event [Done]; it completes when the manager of the session
    receives, which is assumed here.  [decrementCounter] is called by
    the timer task only, hence on a session that has a timer. *)
Definition resetCounter (t : term) (timeout : Z) : term :=
  if 0 <? timeout then set_timeout t timeout else t.

Definition decrementCounter (t : term) : term * list event :=
  let t1 := set_timeout t (Int64.sub (timeout t) second) in
  if timeout t1 =? 0 then (set_timer t1 (Some Stopped), [Done])
  else (t1, []).

Section WithEncoder.

(** [encoder.EncodeSenML(id, name, value)], a payload or an error. *)
Variable EncodeSenML : string -> string -> string -> error + string.

Definition Write (t : term) (p : list Byte.byte)
  : term * (nat * option error) * list event :=
  let t1 := resetCounter t (resetTimeout t) in
  let n := List.length p in
  match EncodeSenML (uuid t1) terminal (string_of_list_byte p) with
  | inl err => (t1, (n, Some err), [])
  | inr payload =>
    match publish t1 (topic t1) payload with
    | Some err => (t1, (n, Some err), [Publish (topic t1) payload])
    | None => (t1, (n, None), [Publish (topic t1) payload])
    end
  end.

Definition Send (t : term) (p : list Byte.byte)
  : term * option error * list event :=
  let '(nr, err, f) := io_Copy_to_file (ptmx t) p in
  let t1 := set_ptmx t f in
  let log := [Log "debug" ("Written to ptmx: " ++ itoa nr)] in
  match err with
  | Some e => (t1, Some (errorsNew (Error e)), log)
  | None => (t1, None, log)
  end.

(** A session as the runtime holds it: the [term], whether the task
    that copies the output of the shell to [Write] is running, and the
    number of bytes that task has copied. *)
Record session := mkSession {
  tm : term;
  copier : bool;
  copied : nat
}.

(** [NewSession]; [spawn] is the result of [pty.Start].  The first
    component is the [Session] returned, [None] standing for a nil
    interface value. *)
Definition NewSession (uuid : string) (timeout : Z)
    (publish : string -> string -> option error) (spawn : error + pty)
  : option session * option error :=
  let t := mkTerm uuid None ("term/" ++ uuid) timeout timeout None publish in
  match spawn with
  | inl err => (Some (mkSession t false O), Some (errorsNew (Error err)))
  | inr ptmx =>
    let t1 := set_ptmx t (Some ptmx) in
    let t2 := set_timer t1 (Some Running) in
    (Some (mkSession t2 true O), None)
  end.

(** What can happen to a session: the ticker delivers a tick, the shell
    produces a chunk of output, a caller sends input. *)
Inductive action :=
| Tick
| Output (p : list Byte.byte)
| Input (p : list Byte.byte).

Definition step (a : action) (s : session) : session * list event :=
  match a with
  | Tick =>
    match timer (tm s) with
    | Some Running =>
      let (t1, evs) := decrementCounter (tm s) in
      (mkSession t1 (copier s) (copied s), evs)
    | _ => (s, [])
    end
  | Output p =>
    if copier s then
      let '(t1, (nw, err), evs) := Write (tm s) p in
      let n := (copied s + nw)%nat in
      match err with
      | Some e =>
        (mkSession t1 false n,
         (evs ++ [Log "error" ("Error sending data: " ++ Error e);
                  Log "debug" ("Data being sent: " ++ itoa n)])%list)
      | None => (mkSession t1 true n, evs)
      end
    else (s, [])
  | Input p =>
    let '(t1, _, evs) := Send (tm s) p in
    (mkSession t1 (copier s) (copied s), evs)
  end.

Fixpoint run (acts : list action) (s : session) : session * list event :=
  match acts with
  | [] => (s, [])
  | a :: acts' =>
    let (s1, e1) := step a s in
    let (s2, e2) := run acts' s1 in
    (s2, (e1 ++ e2)%list)
  end.

End WithEncoder.

Definition is_done (e : event) : bool :=
  match e with
  | Done => true
  | _ => false
  end.

(** The number of times [doneSignal] was emitted. *)
Definition done_count (evs : list event) : nat :=
  List.length (filter is_done evs).

Definition is_tick (a : action) : bool :=
  match a with
  | Tick => true
  | _ => false
  end.

(** The number of ticks in a schedule. *)
Definition ticks (acts : list action) : nat :=
  List.length (filter is_tick acts).

(** An action that is not output activity. *)
Definition quiet (a : action) : bool :=
  match a with
  | Output _ => false
  | _ => true
  end.

(** An action of one of the two tasks of the session, as opposed to a
    call from outside. *)
Definition spontaneous (a : action) : bool :=
  match a with
  | Input _ => false
  | _ => true
  end.


(** The codec of the specification as the encoder of a session. *)
Definition specEncoder (now : Encoder.wallclock)
  : string -> string -> string -> error + string :=
  fun id name value => inr (Encoder.Encode now id name value).

End Terminal.

(** *** Sample sessions *)

Module Samples.
Import Terminal.

Definition clock : Encoder.wallclock :=
  Encoder.mkClock 1588091188 (D8 (D8 (D7 Nil))).

Definition encoder := specEncoder clock.

Definition freshPty : pty := mkPty [] None.

Definition connected : string -> string -> option error :=
  fun _ _ => None.

Definition disconnected : string -> string -> option error :=
  fun _ _ => Some (Err "not connected").

Definition chunk : list Byte.byte := [Byte.x6c; Byte.x73; Byte.x0a].

(** A session created with a timeout of three seconds whose broker
    connection is down, after two ticks. *)
Definition stale : term :=
  mkTerm "c0ffee" (Some freshPty) "term/c0ffee" (1 * second) (3 * second)
    (Some Running) disconnected.

End Samples.

(** ** The bootstrap procedure *)

Module Bootstrap.
Local Open Scope Z_scope.

(** *** Errors *)

Inductive numErr := ErrSyntax | ErrRange.

Inductive error :=
| NumError (func num : string) (e : numErr)   (* a [strconv.NumError] *)
| errorsNew (msg : string)                    (* [errors.New(msg)] *)
| errorsNewf (format : string) (arg : error)  (* [errors.New(fmt.Sprintf(format, arg))] *)
| ErrMalformedEntity                          (* [agent.ErrMalformedEntity] *)
| ErrExternal (msg : string).                 (* raised by a library or the system *)

(** *** [strconv.ParseUint(s, 10, 64)] *)

Definition maxUint64 : Z := 2 ^ 64 - 1.
Definition cutoff : Z := maxUint64 / 10 + 1.

Definition is_digit (c : ascii) : bool :=
  ((48 <=? N_of_ascii c) && (N_of_ascii c <=? 57))%N.

Fixpoint parse_digits (s0 s : string) (n : Z) : error + Z :=
  match s with
  | EmptyString => inr n
  | String c r =>
    if is_digit c then
      let d := Z.of_N (N_of_ascii c) - 48 in
      if cutoff <=? n then inl (NumError "ParseUint" s0 ErrRange)
      else
        let n1 := n * 10 + d in
        if maxUint64 <? n1 then inl (NumError "ParseUint" s0 ErrRange)
        else parse_digits s0 r n1
    else inl (NumError "ParseUint" s0 ErrSyntax)
  end.

Definition ParseUint (s : string) : error + Z :=
  match s with
  | EmptyString => inl (NumError "ParseUint" s ErrSyntax)
  | _ => parse_digits s s 0
  end.

(** [int(u)] for an unsigned 64-bit [u], where [int] has 64 bits. *)
Definition int (u : Z) : Z := Int64.wrap u.

(** [time.Second], in nanoseconds *)
Definition Second : Z := 1000000000.

(** [time.Duration(u) * time.Second] for an unsigned 64-bit [u]. *)
Definition seconds (u : Z) : Z := Int64.mul (Int64.wrap u) Second.

(** *** The configuration of the agent *)

(** Modelled from the spec: package [pkg/agent] ([Config], [NewConfig],
    [SaveConfig]) is not among the sources; the records below have the
    entries of the configuration file shown in the README, and the
    certificates that [Bootstrap] stores. *)

Record ServerConfig := mkServer { Port : string; BrokerURL : string }.
Record ChanConfig := mkChan { Control : string; Data : string }.
Record EdgexConfig := mkEdgex { EdgexURL : string }.
Record LogConfig := mkLog { Level : string }.
Record HeartbeatConfig := mkHeartbeat { Interval : Z }.
Record TerminalConfig := mkTerminal { SessionTimeout : Z }.

Record MQTTConfig := mkMQTT {
  URL : string;
  Username : string;
  Password : string;
  MTLS : bool;
  SkipTLSVer : bool;
  Retain : bool;
  QoS : Z;
  CAPath : string;
  CertPath : string;
  PrivKeyPath : string;
  CaCert : string;
  ClientCert : string;
  ClientKey : string
}.

Record agentConfig := mkAgentConfig {
  Server : ServerConfig;
  Terminal : TerminalConfig;
  Heartbeat : HeartbeatConfig;
  Channels : ChanConfig;
  Edgex : EdgexConfig;
  Log_ : LogConfig;
  MQTT : MQTTConfig;
  File : string
}.

(** Modelled from the spec: [agent.NewConfig] of the absent package
    [pkg/agent], which gathers its arguments into a [Config]. *)
Definition NewConfig (sc : ServerConfig) (cc : ChanConfig) (ec : EdgexConfig)
    (lc : LogConfig) (mc : MQTTConfig) (hc : HeartbeatConfig)
    (tc : TerminalConfig) (file : string) : agentConfig :=
  mkAgentConfig sc tc hc cc ec lc mc file.

(** The part of the configuration of the export service that
    [Bootstrap] reads or fills. *)
Record exportMQTT := mkExportMQTT {
  exUsername : string;
  exPassword : string;
  exClientCert : string;
  exClientCertKey : string;
  exClientCertPath : string;
  exClientPrivKeyPath : string
}.

Record Route := mkRoute { MqttTopic : string; NatsTopic : string }.

Record exportConfig := mkExportConfig {
  exMQTT : exportMQTT;
  Routes : list Route;
  exFile : string
}.

(** *** The types of the package *)

Definition exportConfigFile : string := "/configs/export/config.toml".

Record Config := mkConfig {
  cfgURL : string;
  ID : string;
  Key : string;
  Retries : string;
  RetryDelaySec : string;
  Encrypt : string;
  SkipTLS : bool
}.

Record ServicesConfig := mkServices {
  Agent : agentConfig;
  Export : exportConfig
}.

Record ConfigContent := mkContent { Content : string }.

(** A value held in a metadata map. *)
Inductive any :=
| AnyString (s : string)
| AnyOther.

(** [bootstrap.Channel] *)
Record Channel := mkChannel {
  chanID : string;
  Metadata : list (string * any)
}.

Record deviceConfig := mkDevice {
  MainfluxID : string;
  MainfluxKey : string;
  MainfluxChannels : list Channel;
  dcClientKey : string;
  dcClientCert : string;
  dcCaCert : string;
  SvcsConf : ServicesConfig
}.

(** The zero values. *)
Definition zeroMQTT : MQTTConfig :=
  mkMQTT "" "" "" false false false 0 "" "" "" "" "" "".

Definition zeroAgent : agentConfig :=
  mkAgentConfig (mkServer "" "") (mkTerminal 0) (mkHeartbeat 0) (mkChan "" "")
    (mkEdgex "") (mkLog "") zeroMQTT "".

Definition zeroExport : exportConfig :=
  mkExportConfig (mkExportMQTT "" "" "" "" "" "") [] "".

Definition zeroServices : ServicesConfig := mkServices zeroAgent zeroExport.

Definition zeroDevice : deviceConfig :=
  mkDevice "" "" [] "" "" "" zeroServices.

(** *** Effects *)

(** The effects of the procedure; of a log entry the level and the
    message are kept, its attributes are left out. *)
Inductive event :=
| Log (level msg : string)
| Println (s : string)
| Fetch (attempt : nat)                 (* [getConfig] is entered *)
| Request (url authorization : string) (skipTLS : bool)
| Sleep (d : Z)
| SaveExport (c : exportConfig)
| SaveAgent (c : agentConfig).

(** A computation with its trace of effects. *)
Definition M (A : Type) : Type := A * list event.

Definition ret {A} (a : A) : M A := (a, []).

Definition bind {A B} (m : M A) (k : A -> M B) : M B :=
  let (a, t1) := m in
  let (b, t2) := k a in
  (b, (t1 ++ t2)%list).

Definition emit (e : event) : M unit := (tt, [e]).

Notation "x <~ m ;; k" := (bind m (fun x => k))
  (at level 61, m at next level, right associativity).
Notation "m ;;; k" := (bind m (fun _ => k))
  (at level 61, right associativity).

(** An HTTP response: the status code and the outcome of reading the
    body. *)
Record response := mkResponse {
  StatusCode : Z;
  Body : error + string
}.

(** What [Bootstrap] asks of the system and of the libraries it calls.
    [systemCertPool] is the text of the error of [x509.SystemCertPool],
    if any; [httpDo k] answers the request numbered [k], so that the
    service may answer each attempt differently; [stat] tells whether
    [os.Stat] finds the file. *)
Record env := mkEnv {
  systemCertPool : option string;
  newRequest : string -> option error;
  httpDo : nat -> string -> string -> bool -> error + response;
  StatusText : Z -> string;
  unmarshalContent : string -> error + ConfigContent;
  unmarshalServices : string -> error + ServicesConfig;
  unmarshalDevice : string -> error + deviceConfig;
  stat : string -> bool;
  exportSave : exportConfig -> option error;
  SaveConfig : agentConfig -> option error
}.

Definition StatusBadRequest : Z := 400.

Section WithEnv.

Variable E : env.

Definition set_SvcsConf (dc : deviceConfig) (sc : ServicesConfig) : deviceConfig :=
  mkDevice (MainfluxID dc) (MainfluxKey dc) (MainfluxChannels dc)
    (dcClientKey dc) (dcClientCert dc) (dcCaCert dc) sc.

Definition getConfig (attempt : nat) (bsID bsKey bsSvrURL : string)
    (skipTLS : bool) : M (error + deviceConfig) :=
  emit (Fetch attempt) ;;;
  match systemCertPool E with
  | Some msg => emit (Log "error" msg)
  | None => ret tt
  end ;;;
  let url := bsSvrURL ++ "/" ++ bsID in
  match newRequest E url with
  | Some err => ret (inl err)
  | None =>
    let authorization := "Thing " ++ bsKey in
    emit (Request url authorization skipTLS) ;;;
    match httpDo E attempt url authorization skipTLS with
    | inl err => ret (inl err)
    | inr resp =>
      if StatusBadRequest <=? StatusCode resp then
        ret (inl (errorsNew (StatusText E (StatusCode resp))))
      else
        match Body resp with
        | inl err => ret (inl err)
        | inr body =>
          match unmarshalContent E body with
          | inl err => ret (inl err)
          | inr h =>
            emit (Println (Content h)) ;;;
            match unmarshalServices E (Content h) with
            | inl err => ret (inl err)
            | inr sc =>
              match unmarshalDevice E body with
              | inl err => ret (inl err)
              | inr dc => ret (inr (set_SvcsConf dc sc))
              end
            end
          end
        end
    end
  end.

Definition set_exportMQTT (c : exportConfig) (m : exportMQTT) : exportConfig :=
  mkExportConfig m (Routes c) (exFile c).

Definition orElse (s d : string) : string :=
  if String.eqb s "" then d else s.

(** If the export configuration is not filled, use that of the agent. *)
Definition fillExportConfig (econf : exportConfig) (c : agentConfig)
  : exportConfig :=
  let m := exMQTT econf in
  let m1 :=
    mkExportMQTT
      (orElse (exUsername m) (Username (MQTT c)))
      (orElse (exPassword m) (Password (MQTT c)))
      (orElse (exClientCert m) (ClientCert (MQTT c)))
      (orElse (exClientCertKey m) (ClientKey (MQTT c)))
      (orElse (exClientCertPath m) (CertPath (MQTT c)))
      (orElse (exClientPrivKeyPath m) (PrivKeyPath (MQTT c))) in
  let routes :=
    map (fun route =>
           mkRoute (orElse (MqttTopic route)
                      ("channels/" ++ Data (Channels c) ++ "/messages"))
                   (NatsTopic route))
        (Routes econf) in
  mkExportConfig m1 routes (exFile econf).

Definition saveExportConfig (econf : exportConfig) : M unit :=
  let econf1 :=
    mkExportConfig (exMQTT econf) (Routes econf)
      (orElse (exFile econf) exportConfigFile) in
  if stat E (exFile econf1) then
    emit (Log "info" "Export config file exists")
  else
    emit (Log "info" "Saving export config file") ;;;
    emit (SaveExport econf1) ;;;
    match exportSave E econf1 with
    | Some _ => emit (Log "warn" "Failed to save export config file")
    | None => ret tt
    end.

(** How the retry loop ends: the statements after the loop run with
    [dc], the function returns, or the model ran out of fuel. *)
Inductive outcome :=
| Proceed (dc : deviceConfig)
| Return (err : option error)
| OutOfFuel.

(** The loop [for i := 0; i < int(retries); i++] from the value [i] of
    its counter. *)
Fixpoint retryLoop (fuel : nat) (cfg : Config) (retries retryDelaySec : Z)
    (i : Z) (dc : deviceConfig) : M outcome :=
  if i <? int retries then
    match fuel with
    | O => ret OutOfFuel
    | S fuel' =>
      r <~ getConfig (Z.to_nat i) (ID cfg) (Key cfg) (cfgURL cfg) (SkipTLS cfg) ;;
      match r with
      | inr dc1 => ret (Proceed dc1)
      | inl err =>
        emit (Log "error" "Fetching bootstrap failed") ;;;
        emit (Log "debug" "Retrying...") ;;;
        emit (Sleep (seconds retryDelaySec)) ;;;
        if i =? int retries - 1 then
          emit (Log "warn" "Retries exhausted") ;;;
          emit (Log "info" "Continuing with local config") ;;;
          ret (Return None)
        else retryLoop fuel' cfg retries retryDelaySec (i + 1) zeroDevice
      end
    end
  else ret (Proceed dc).

Definition lookup (k : string) (m : list (string * any)) : option any :=
  match find (fun kv => String.eqb (fst kv) k) m with
  | Some kv => Some (snd kv)
  | None => None
  end.

Definition is_data (v : option any) : bool :=
  match v with
  | Some (AnyString s) => String.eqb s "data"
  | _ => false
  end.

(** The statements of [Bootstrap] after the loop. *)
Definition configure (dc : deviceConfig) (file : string) : M (option error) :=
  match MainfluxChannels dc with
  | ch0 :: ch1 :: _ =>
    let (ctrlChan, dataChan) :=
      if is_data (lookup "type" (Metadata ch0))
      then (chanID ch1, chanID ch0)
      else (chanID ch0, chanID ch1) in
    let a := Agent (SvcsConf dc) in
    let sc := Server a in
    let cc := mkChan ctrlChan dataChan in
    let ec := Edgex a in
    let lc := Log_ a in
    let mc0 := MQTT a in
    let mc :=
      mkMQTT (URL mc0) (MainfluxID dc) (MainfluxKey dc) (MTLS mc0)
        (SkipTLSVer mc0) (Retain mc0) (QoS mc0) (CAPath mc0) (CertPath mc0)
        (PrivKeyPath mc0) (dcCaCert dc) (dcClientCert dc) (dcClientKey dc) in
    let hc := Heartbeat a in
    let tc := Terminal a in
    let c := NewConfig sc cc ec lc mc hc tc file in
    let ex := fillExportConfig (Export (SvcsConf dc)) c in
    saveExportConfig ex ;;;
    emit (SaveAgent c) ;;;
    ret (SaveConfig E c)
  | _ => ret (Some ErrMalformedEntity)
  end.

(** The result of a run: the error returned ([None] is nil), or no
    result because the model ran out of fuel. *)
Inductive result :=
| Returned (err : option error)
| Diverged.

(** [Bootstrap] retrieves the device configuration. *)
Definition Bootstrap (cfg : Config) (file : string) : M result :=
  match ParseUint (Retries cfg) with
  | inl err => ret (Returned (Some (errorsNewf "Invalid BOOTSTRAP_RETRIES value: %s" err)))
  | inr retries =>
    if retries =? 0 then
      emit (Log "info" "No bootstrapping, environment variables will be used") ;;;
      ret (Returned None)
    else
      match ParseUint (RetryDelaySec cfg) with
      | inl err =>
        ret (Returned (Some (errorsNewf "Invalid BOOTSTRAP_RETRY_DELAY_SECONDS value: %s" err)))
      | inr retryDelaySec =>
        emit (Log "info" "Requesting config") ;;;
        o <~ retryLoop (Z.to_nat (int retries)) cfg retries retryDelaySec 0 zeroDevice ;;
        match o with
        | Proceed dc =>
          r <~ configure dc file ;; ret (Returned r)
        | Return err => ret (Returned err)
        | OutOfFuel => ret Diverged
        end
      end
  end.

End WithEnv.

(** The outcome of the fetch numbered [k]. *)
Definition fetch (E : env) (cfg : Config) (k : nat) : error + deviceConfig :=
  fst (getConfig E k (ID cfg) (Key cfg) (cfgURL cfg) (SkipTLS cfg)).

Definition failed (r : error + deviceConfig) : bool :=
  match r with
  | inl _ => true
  | inr _ => false
  end.

(** *** Observations on a trace *)

Definition is_request (e : event) : bool :=
  match e with
  | Request _ _ _ => true
  | _ => false
  end.

Definition is_sleep (e : event) : bool :=
  match e with
  | Sleep _ => true
  | _ => false
  end.

Definition is_save (e : event) : bool :=
  match e with
  | SaveExport _ | SaveAgent _ => true
  | _ => false
  end.

Definition is_fetch (e : event) : bool :=
  match e with
  | Fetch _ => true
  | _ => false
  end.

(** The number of fetches attempted, and of those that reached the
    network. *)
Definition fetches (t : list event) : nat := List.length (filter is_fetch t).

Definition requests (t : list event) : nat := List.length (filter is_request t).

Definition sleeps (t : list event) : list event := filter is_sleep t.

(** The fetches and sleeps of a trace, in their order. *)
Definition timeline (t : list event) : list event :=
  filter (fun e => is_fetch e || is_sleep e) t.

(** [n] failed attempts from attempt [k] on, each followed by a sleep of
    [d] nanoseconds. *)
Definition failed_attempts (d : Z) (k n : nat) : list event :=
  flat_map (fun j => [Fetch j; Sleep d]) (seq k n).

Definition saves (t : list event) : list event := filter is_save t.

End Bootstrap.

(** *** Sample environments *)

Module BootstrapSamples.
Import Bootstrap.

(** A device configuration with a single channel. *)
Definition oneChannel : deviceConfig :=
  mkDevice "thing-1" "key-1" [mkChannel "chan-1" [("type", AnyString "control")]]
    "" "" "" zeroServices.

(** The provisioning service cannot be reached. *)
Definition unreachable : env :=
  mkEnv None (fun _ => None)
    (fun _ _ _ _ => inl (ErrExternal "connection refused"))
    (fun _ => "") (fun _ => inl (ErrExternal "unexpected end of JSON input"))
    (fun _ => inl (ErrExternal "unexpected end of JSON input"))
    (fun _ => inl (ErrExternal "unexpected end of JSON input"))
    (fun _ => false) (fun _ => None) (fun _ => None).

(** The service refuses the first request and answers the second with a
    configuration of one channel. *)
Definition secondTry : env :=
  mkEnv None (fun _ => None)
    (fun k _ _ _ =>
       match k with
       | O => inl (ErrExternal "connection refused")
       | _ => inr (mkResponse 200 (inr "{}"))
       end)
    (fun _ => "") (fun _ => inr (mkContent "{}"))
    (fun _ => inr zeroServices)
    (fun _ => inr oneChannel)
    (fun _ => false) (fun _ => None) (fun _ => None).

Definition config (retries : string) : Config :=
  mkConfig "http://localhost:9013/things/bootstrap" "id-1" "key-1" retries "10"
    "false" true.

End BootstrapSamples.

(** *** Schedules of a session *)

Module Schedules.
Import Terminal.

(** Every run of ticks without output in the schedule stays below [k]
    ticks, [j] ticks having passed since the last output. *)
Fixpoint idle_below (k j : nat) (acts : list action) : bool :=
  match acts with
  | [] => true
  | Tick :: r => (S j <? k)%nat && idle_below k (S j) r
  | Output _ :: r => idle_below k O r
  | Input _ :: r => idle_below k j r
  end.

Definition is_publish (e : event) : bool :=
  match e with
  | Publish _ _ => true
  | _ => false
  end.

(** The number of calls of [publish]. *)
Definition publish_count (evs : list event) : nat :=
  List.length (filter is_publish evs).

(** An event that is not a call of [publish] on another channel than
    [c]. *)
Definition on_channel (c : string) (e : event) : Prop :=
  match e with
  | Publish ch _ => ch = c
  | _ => True
  end.

(** The bytes that the schedule sends as input, in their order. *)
Fixpoint inputs (acts : list action) : list Byte.byte :=
  match acts with
  | [] => []
  | Input p :: r => (p ++ inputs r)%list
  | _ :: r => inputs r
  end.

End Schedules.

(** *** Observations on the bootstrap procedure *)

Module BootstrapViews.
Import Bootstrap.

(** The environment [E] with another [export.Save]. *)
Definition set_exportSave (E : env) (f : exportConfig -> option error) : env :=
  mkEnv (systemCertPool E) (newRequest E) (httpDo E) (StatusText E)
    (unmarshalContent E) (unmarshalServices E) (unmarshalDevice E)
    (stat E) f (SaveConfig E).

(** The string holds a character that is not a decimal digit. *)
Fixpoint has_nondigit (s : string) : bool :=
  match s with
  | EmptyString => false
  | String c r => negb (is_digit c) || has_nondigit r
  end.

Definition is_save_export (e : event) : bool :=
  match e with
  | SaveExport _ => true
  | _ => false
  end.

Definition is_save_agent (e : event) : bool :=
  match e with
  | SaveAgent _ => true
  | _ => false
  end.

Definition export_saves (t : list event) : list event := filter is_save_export t.

Definition agent_saves (t : list event) : list event := filter is_save_agent t.

(** An event that is not a request other than the one [cfg] asks
    for. *)
Definition request_of (cfg : Config) (e : event) : Prop :=
  match e with
  | Request url authorization skipTLS =>
    url = (cfgURL cfg ++ "/" ++ ID cfg)%string /\
    authorization = ("Thing " ++ Key cfg)%string /\
    skipTLS = SkipTLS cfg
  | _ => True
  end.

(** All that [fillExportConfig] would fill is set. *)
Definition filled (econf : exportConfig) : bool :=
  let m := exMQTT econf in
  negb (String.eqb (exUsername m) "") &&
  negb (String.eqb (exPassword m) "") &&
  negb (String.eqb (exClientCert m) "") &&
  negb (String.eqb (exClientCertKey m) "") &&
  negb (String.eqb (exClientCertPath m) "") &&
  negb (String.eqb (exClientPrivKeyPath m) "") &&
  forallb (fun r => negb (String.eqb (MqttTopic r) "")) (Routes econf).

End BootstrapViews.

(** ** The metrics middleware *)

Module Metrics.

(** What the middleware hands to its counter and to its histogram: the
    label and the amount added, the label and the time observed.  The
    time is kept in nanoseconds; its conversion to a floating-point
    number of seconds is not modelled. *)
Inductive metric :=
| CounterAdd (label value : string) (delta : Z)
| Observe (label value : string) (elapsed : Z).

Section WithTypes.

(** [agent.Config], [agent.Info], [context.Context] and [error]. *)
Variables Cfg Info Ctx Err : Type.

(** [agent.Service], as the methods of the middleware show it; a method
    takes the world [W] it runs in and returns it with its results. *)
Record Service (W : Type) : Type := mkService {
  Execute : string -> string -> W -> (string * option Err) * W;
  Control : string -> string -> W -> option Err * W;
  AddConfig : Cfg -> W -> option Err * W;
  ServiceConfig : Ctx -> string -> string -> W -> option Err * W;
  Config : W -> Cfg * W;
  Services : W -> list Info * W;
  Publish : string -> string -> W -> option Err * W;
  Terminal : string -> string -> W -> option Err * W
}.

Arguments mkService {W}.
Arguments Execute {W}.
Arguments Control {W}.
Arguments AddConfig {W}.
Arguments ServiceConfig {W}.
Arguments Config {W}.
Arguments Services {W}.
Arguments Publish {W}.
Arguments Terminal {W}.

(** The body shared by the methods: the deferred function takes the time
    at entry, and after the call adds one to the counter and observes
    the time that has passed, both under the label [method]. *)
Definition instrumented {W A : Type} (now : W -> Z) (method : string)
    (call : W -> A * W) (st : W * list metric) : A * (W * list metric) :=
  let (w, log) := st in
  let begin := now w in
  let (r, w1) := call w in
  (r, (w1, (log ++ [CounterAdd "method" method 1%Z;
                    Observe "method" method (now w1 - begin)%Z])%list)).

(** [MetricsMiddleware] wraps [svc]; the counter and the histogram are
    the log carried beside the world, [now] is [time.Now]. *)
Definition MetricsMiddleware {W : Type} (now : W -> Z) (svc : Service W)
  : Service (W * list metric) :=
  mkService
    (fun uuid cmdStr => instrumented now "execute" (Execute svc uuid cmdStr))
    (fun uuid cmdStr => instrumented now "control" (Control svc uuid cmdStr))
    (fun ec => instrumented now "add_config" (AddConfig svc ec))
    (fun ctx uuid cmdStr =>
       instrumented now "service_config" (ServiceConfig svc ctx uuid cmdStr))
    (instrumented now "config" (Config svc))
    (instrumented now "services" (Services svc))
    (fun topic payload => instrumented now "publish" (Publish svc topic payload))
    (fun topic payload => instrumented now "publish" (Terminal svc topic payload)).

(** A call of a method of the service. *)
Inductive call :=
| CallExecute (uuid cmdStr : string)
| CallControl (uuid cmdStr : string)
| CallAddConfig (ec : Cfg)
| CallServiceConfig (ctx : Ctx) (uuid cmdStr : string)
| CallConfig
| CallServices
| CallPublish (topic payload : string)
| CallTerminal (topic payload : string).

(** The world after a call, its results dropped. *)
Definition invoke {W : Type} (svc : Service W) (c : call) (w : W) : W :=
  match c with
  | CallExecute uuid cmdStr => snd (Execute svc uuid cmdStr w)
  | CallControl uuid cmdStr => snd (Control svc uuid cmdStr w)
  | CallAddConfig ec => snd (AddConfig svc ec w)
  | CallServiceConfig ctx uuid cmdStr => snd (ServiceConfig svc ctx uuid cmdStr w)
  | CallConfig => snd (Config svc w)
  | CallServices => snd (Services svc w)
  | CallPublish topic payload => snd (Publish svc topic payload w)
  | CallTerminal topic payload => snd (Terminal svc topic payload w)
  end.

Fixpoint invoke_all {W : Type} (svc : Service W) (cs : list call) (w : W) : W :=
  match cs with
  | [] => w
  | c :: cs' => invoke_all svc cs' (invoke svc c w)
  end.

Definition is_publish_call (c : call) : bool :=
  match c with
  | CallPublish _ _ => true
  | _ => false
  end.

Definition is_terminal_call (c : call) : bool :=
  match c with
  | CallTerminal _ _ => true
  | _ => false
  end.

End WithTypes.

Arguments mkService {Cfg Info Ctx Err W}.
Arguments Execute {Cfg Info Ctx Err W}.
Arguments Control {Cfg Info Ctx Err W}.
Arguments AddConfig {Cfg Info Ctx Err W}.
Arguments ServiceConfig {Cfg Info Ctx Err W}.
Arguments Config {Cfg Info Ctx Err W}.
Arguments Services {Cfg Info Ctx Err W}.
Arguments Publish {Cfg Info Ctx Err W}.
Arguments Terminal {Cfg Info Ctx Err W}.
Arguments MetricsMiddleware {Cfg Info Ctx Err W}.
Arguments invoke {Cfg Info Ctx Err W}.
Arguments invoke_all {Cfg Info Ctx Err W}.
Arguments is_publish_call {Cfg Ctx}.
Arguments is_terminal_call {Cfg Ctx}.

(** The number of times the counter was added to under the method
    [value]. *)
Definition adds (value : string) (log : list metric) : nat :=
  List.length
    (filter (fun m =>
               match m with
               | CounterAdd _ v _ => String.eqb v value
               | Observe _ _ _ => false
               end) log).

(** A service that takes a unit of time for each call and answers with
    what it was given. *)
Definition echo : Service unit unit unit string Z :=
  mkService
    (fun uuid cmdStr w => ((cmdStr, None), (w + 1)%Z))
    (fun _ _ w => (None, (w + 1)%Z))
    (fun _ w => (None, (w + 1)%Z))
    (fun _ _ _ w => (None, (w + 1)%Z))
    (fun w => (tt, (w + 1)%Z))
    (fun w => ([], (w + 1)%Z))
    (fun _ _ w => (None, (w + 1)%Z))
    (fun _ payload w => (Some payload, (w + 1)%Z)).

End Metrics.

(** ** More sample data *)

Module MoreSamples.
Import Bootstrap.

(** A device configuration whose first channel is the data channel. *)
Definition twoChannels : deviceConfig :=
  mkDevice "thing-1" "key-1"
    [mkChannel "chan-d" [("type", AnyString "data")];
     mkChannel "chan-c" [("type", AnyString "control")]]
    "" "" "" zeroServices.

(** The service refuses the first request and answers the second with a
    configuration of two channels; the export configuration file is
    there already. *)
Definition provisioned : env :=
  mkEnv None (fun _ => None)
    (fun k _ _ _ =>
       match k with
       | O => inl (ErrExternal "connection refused")
       | _ => inr (mkResponse 200 (inr "{}"))
       end)
    (fun _ => "") (fun _ => inr (mkContent "{}"))
    (fun _ => inr zeroServices)
    (fun _ => inr twoChannels)
    (fun _ => true) (fun _ => None) (fun _ => None).

(** The service does not know the configuration. *)
Definition notFound : env :=
  mkEnv None (fun _ => None)
    (fun _ _ _ _ => inr (mkResponse 404 (inr "")))
    (fun _ => "Not Found") (fun _ => inl (ErrExternal "unexpected end of JSON input"))
    (fun _ => inl (ErrExternal "unexpected end of JSON input"))
    (fun _ => inl (ErrExternal "unexpected end of JSON input"))
    (fun _ => false) (fun _ => None) (fun _ => None).

(** A configuration whose delay is not a number. *)
Definition badDelay : Config :=
  mkConfig "http://localhost:9013/things/bootstrap" "id-1" "key-1" "5" "10s"
    "false" true.

(** An export configuration with nothing left to fill. *)
Definition complete : exportConfig :=
  mkExportConfig
    (mkExportMQTT "user" "secret" "cert" "key" "thing.crt" "thing.key")
    [mkRoute "channels/chan-d/messages" "*"] "/configs/export/config.toml".

End MoreSamples.

(** ** What the copy task delivers *)

Module Delivery.
Import Terminal.

(** The payload of a chunk of a session created for [uuid], with the
    codec of the specification. *)
Definition payload (now : Encoder.wallclock) (uuid : string)
    (p : list Byte.byte) : string :=
  Encoder.Encode now uuid terminal (string_of_list_byte p).





End Delivery.

(** * Part II: properties *)

(** ** Machine integers *)

Local Open Scope Z_scope.

Lemma wrap_in_range (z : Z) : Int64.in_range (Int64.wrap z).
Proof.
  unfold Int64.in_range, Int64.wrap, Int64.min_int, Int64.max_int.
  pose proof (Z.mod_pos_bound (z + Int64.half) Int64.modulus eq_refl).
  change Int64.modulus with (2 * Int64.half) in *. lia.
Qed.

Lemma wrap_small (z : Z) : Int64.in_range z -> Int64.wrap z = z.
Proof.
  unfold Int64.in_range, Int64.wrap, Int64.min_int, Int64.max_int. intros H.
  rewrite Z.mod_small; [lia|].
  change Int64.modulus with (2 * Int64.half). lia.
Qed.

(** Wrapping keeps the residue modulo a power of two below the word
    size. *)
Lemma wrap_mod_512 (z : Z) : Int64.wrap z mod 512 = z mod 512.
Proof.
  unfold Int64.wrap.
  rewrite (Z.mod_eq (z + Int64.half) Int64.modulus) by discriminate.
  set (q := (z + Int64.half) / Int64.modulus).
  replace (z + Int64.half - Int64.modulus * q - Int64.half)
    with (z + (- q * 36028797018963968) * 512).
  - apply Z.mod_add. discriminate.
  - unfold Int64.modulus. change (2 ^ 64) with (36028797018963968 * 512). lia.
Qed.

(** ** Strings *)

Lemma string_app_assoc (a b c : string) :
  (a ++ (b ++ c) = (a ++ b) ++ c)%string.
Proof.
  induction a as [|x a IH]; cbn; [reflexivity | now rewrite IH].
Qed.

Lemma string_app_nil_r (a : string) : (a ++ "")%string = a.
Proof.
  induction a as [|x a IH]; cbn; [reflexivity | now rewrite IH].
Qed.

Lemma string_length_app (a b : string) :
  String.length (a ++ b) = (String.length a + String.length b)%nat.
Proof.
  induction a as [|x a IH]; cbn; [reflexivity | now rewrite IH].
Qed.

(** ** The measurement codec *)

Section EncoderFacts.
Import Encoder.

Lemma parse_escape_char (c : ascii) (k v rest : string) :
  parse_chars k = Some (v, rest) ->
  parse_chars (escape_char c ++ k) = Some (String c v, rest).
Proof.
  intros H.
  destruct c as [[] [] [] [] [] [] [] []]; simpl; rewrite H; reflexivity.
Qed.

Lemma parse_escape (s k : string) :
  parse_chars (escape s ++ String dquote k) = Some (s, k).
Proof.
  induction s as [|c s IH]; [reflexivity|].
  cbn [escape]. rewrite <- string_app_assoc.
  now apply parse_escape_char.
Qed.

Lemma parse_value_quoted (s k : string) :
  parse_value (quoted s k) = Some (JString s, k).
Proof.
  unfold quoted, parse_value.
  change (Ascii.eqb dquote dquote) with true. cbn iota.
  rewrite parse_escape. reflexivity.
Qed.

(** The digits of a number are read back up to the first character that
    is not a digit. *)
Lemma span_digits_uint (u : uint) (c : ascii) (k : string) :
  is_digit c = false ->
  span_digits (NilEmpty.string_of_uint u ++ String c k)
  = (NilEmpty.string_of_uint u, String c k).
Proof.
  intros H. induction u; cbn [NilEmpty.string_of_uint String.append span_digits];
    try (change (is_digit _) with true; cbn iota; rewrite IHu; reflexivity).
  rewrite H. reflexivity.
Qed.

Lemma to_uint_shape (n : N) :
  N.to_uint n = D0 Nil \/
  match N.to_uint n with
  | Nil | D0 _ => False
  | _ => True
  end.
Proof.
  rewrite <- (DecimalN.Unsigned.of_to n) at 1 2.
  rewrite DecimalN.Unsigned.to_of.
  unfold unorm.
  pose proof (nzhead_nonzero (N.to_uint n)) as Hnz.
  destruct (nzhead (N.to_uint n)); auto.
  exfalso. eapply Hnz. reflexivity.
Qed.

Lemma scan_int_seconds (n : N) (c : ascii) (k : string) :
  is_digit c = false ->
  scan_int (NilZero.string_of_uint (N.to_uint n) ++ String c k)
  = Some (NilZero.string_of_uint (N.to_uint n), String c k).
Proof.
  intros H. unfold scan_int.
  destruct (to_uint_shape n) as [E|E].
  - rewrite E. cbn. rewrite H. reflexivity.
  - destruct (N.to_uint n) as [|u|u|u|u|u|u|u|u|u|u]; try contradiction;
      cbn [NilZero.string_of_uint];
      rewrite (span_digits_uint _ c k H); reflexivity.
Qed.

Lemma seconds_head (n : N) :
  exists d r, NilZero.string_of_uint (N.to_uint n) = String d r /\
              is_digit d = true.
Proof.
  destruct (to_uint_shape n) as [E|E].
  - rewrite E. now exists "0"%char, "".
  - destruct (N.to_uint n) as [|u|u|u|u|u|u|u|u|u|u]; try contradiction;
      cbn [NilZero.string_of_uint NilEmpty.string_of_uint];
      eexists; eexists; (split; [reflexivity | reflexivity]).
Qed.

Lemma scan_sign_digit (d : ascii) (r : string) :
  is_digit d = true -> scan_sign (String d r) = ("", String d r).
Proof.
  destruct d as [[] [] [] [] [] [] [] []]; intros H;
    try discriminate H; reflexivity.
Qed.

Lemma parse_value_digit (d : ascii) (r : string) :
  is_digit d = true ->
  parse_value (String d r)
  = ' (lit, rest) <- scan_number (String d r) ;; Some (JNumber lit, rest).
Proof.
  destruct d as [[] [] [] [] [] [] [] []]; intros H;
    try discriminate H; reflexivity.
Qed.

Lemma scan_frac_time (f : uint) (k : string) :
  scan_frac
    (format_fraction f ++ String "," k)
  = Some (format_fraction f, String "," k).
Proof.
  destruct f; [reflexivity | ..];
    cbn [format_fraction String.append scan_frac];
    rewrite (span_digits_uint _ "," k eq_refl); reflexivity.
Qed.

Lemma frac_head (f : uint) (k : string) :
  exists c r,
    format_fraction f ++ String "," k = String c r /\ is_digit c = false.
Proof.
  destruct f; cbn [format_fraction String.append]; eexists; eexists; split; reflexivity.
Qed.

Lemma scan_number_parts (A F k : string) (d c : ascii) (r' r : string) :
  A = String d r' -> is_digit d = true ->
  F ++ String "," k = String c r ->
  scan_int (A ++ String c r) = Some (A, String c r) ->
  scan_frac (F ++ String "," k) = Some (F, String "," k) ->
  scan_number ((A ++ F) ++ String "," k) = Some (A ++ F, String "," k).
Proof.
  intros EA Hd EF Hint Hfrac.
  rewrite <- string_app_assoc. unfold scan_number.
  rewrite EA at 1. cbn [String.append]. rewrite (scan_sign_digit _ _ Hd).
  change (String d (r' ++ F ++ String "," k))
    with (String d r' ++ F ++ String "," k).
  rewrite <- EA, EF, Hint. cbn [obind]. rewrite <- EF, Hfrac.
  cbn [obind scan_exp]. cbn. rewrite string_app_nil_r. reflexivity.
Qed.

(** The time written by [Encode] is read back as one number. *)
Lemma scan_number_time (now : wallclock) (k : string) :
  scan_number (format_time now ++ String "," k)
  = Some (format_time now, String "," k).
Proof.
  unfold format_time.
  destruct (frac_head (fraction now) k) as (c & r & Ec & Hc).
  destruct (seconds_head (seconds now)) as (d & r' & Ed & Hd).
  apply (scan_number_parts _ _ k d c r' r Ed Hd Ec).
  - now apply scan_int_seconds.
  - apply scan_frac_time.
Qed.

Lemma parse_value_time (now : wallclock) (k : string) :
  parse_value (format_time now ++ String "," k)
  = Some (JNumber (format_time now), String "," k).
Proof.
  pose proof (scan_number_time now k) as H.
  destruct (seconds_head (seconds now)) as (d & r' & Ed & Hd).
  assert (E : exists r, format_time now ++ String "," k = String d r).
  { unfold format_time. rewrite Ed. cbn [String.append]. eauto. }
  destruct E as (r & E). rewrite E in *.
  rewrite (parse_value_digit _ _ Hd), H. reflexivity.
Qed.

Lemma skip_ws_quoted (s k : string) : skip_ws (quoted s k) = quoted s k.
Proof. reflexivity. Qed.

Lemma skip_ws_nonws (c : ascii) (r : string) :
  is_ws c = false -> skip_ws (String c r) = String c r.
Proof. intros H. cbn [skip_ws]. now rewrite H. Qed.

(** Unfold one member whose key has been read. *)
Ltac member_key :=
  unfold quoted at 1; cbn [parse_members];
  change (Ascii.eqb dquote dquote) with true; cbn iota;
  rewrite parse_escape; cbn [obind];
  rewrite (skip_ws_nonws ":" _ eq_refl); cbn iota.

Lemma parse_members_string_more (fuel : nat) (key val k : string) :
  parse_members (S fuel) (member_string key val (String "," k))
  = ' (ms, rest) <- parse_members fuel (skip_ws k) ;;
    Some ((key, JString val) :: ms, rest).
Proof.
  unfold member_string. member_key.
  rewrite skip_ws_quoted, parse_value_quoted. reflexivity.
Qed.

Lemma parse_members_string_last (fuel : nat) (key val k : string) :
  parse_members (S fuel) (member_string key val (String "}" k))
  = Some ([(key, JString val)], k).
Proof.
  unfold member_string. member_key.
  rewrite skip_ws_quoted, parse_value_quoted. reflexivity.
Qed.

Lemma skip_ws_time (now : wallclock) (k : string) :
  skip_ws (format_time now ++ k) = format_time now ++ k.
Proof.
  destruct (seconds_head (seconds now)) as (d & r' & Ed & Hd).
  unfold format_time. rewrite Ed. cbn [String.append skip_ws].
  destruct d as [[] [] [] [] [] [] [] []]; try discriminate Hd; reflexivity.
Qed.

Lemma parse_members_number_more (fuel : nat) (key k : string) (now : wallclock) :
  parse_members (S fuel) (member_number key (format_time now) (String "," k))
  = ' (ms, rest) <- parse_members fuel (skip_ws k) ;;
    Some ((key, JNumber (format_time now)) :: ms, rest).
Proof.
  unfold member_number. member_key.
  rewrite skip_ws_time, parse_value_time. reflexivity.
Qed.

Lemma skip_ws_member_string (key val k : string) :
  skip_ws (member_string key val k) = member_string key val k.
Proof. reflexivity. Qed.

Lemma skip_ws_member_number (key lit k : string) :
  skip_ws (member_number key lit k) = member_number key lit k.
Proof. reflexivity. Qed.

(** The four members written by [Encode], read with fuel for four. *)
Lemma parse_members_encoded (fuel : nat) (now : wallclock)
    (id name value k : string) :
  parse_members (4 + fuel)
    (member_string "bn" id (String ","
      (member_string "n" name (String ","
        (member_number "t" (format_time now) (String ","
          (member_string "vs" value (String "}" k))))))))
  = Some ([("bn", JString id); ("n", JString name);
           ("t", JNumber (format_time now)); ("vs", JString value)], k).
Proof.
  cbn [Nat.add].
  rewrite parse_members_string_more, skip_ws_member_string.
  rewrite parse_members_string_more, skip_ws_member_number.
  rewrite parse_members_number_more, skip_ws_member_string.
  rewrite parse_members_string_last. reflexivity.
Qed.

Lemma length_quoted (s k : string) :
  (2 + String.length k <= String.length (quoted s k))%nat.
Proof.
  unfold quoted. cbn [String.length]. rewrite string_length_app.
  cbn [String.length]. lia.
Qed.

Lemma length_member_string (key val k : string) :
  (5 + String.length k <= String.length (member_string key val k))%nat.
Proof.
  unfold member_string.
  pose proof (length_quoted key (String ":" (quoted val k))) as H1.
  pose proof (length_quoted val k) as H2.
  cbn [String.length] in H1. lia.
Qed.

Lemma records_of_encoded (now : wallclock) (id name value : string) :
  records_of [[("bn", JString id); ("n", JString name);
               ("t", JNumber (format_time now)); ("vs", JString value)]]
  = Some [mkRecord id name (Some (format_time now)) (Some value)
            None None None None None].
Proof. reflexivity. Qed.

(** The payload written by [Encode] decodes to the one record it was
    made from. *)
Lemma Decode_Encode (now : wallclock) (id name value : string) :
  Decode (Encode now id name value)
  = inr [mkRecord id name (Some (format_time now)) (Some value)
           None None None None None].
Proof.
  unfold Decode, parse_array, Encode.
  rewrite (skip_ws_nonws "[" _ eq_refl). cbn iota. cbv zeta.
  rewrite (skip_ws_nonws "{" _ eq_refl).
  change (expect "]" (String "{" ?x)) with (@None string). cbn iota.
  cbn [String.length parse_elements parse_object]. cbv zeta.
  rewrite skip_ws_member_string.
  set (ms := member_string "bn" id _).
  change (expect "}" ms) with (@None string). cbn iota.
  assert (Hlen : exists f, String.length ms = (4 + f)%nat).
  { pose proof (length_member_string "bn" id
      (String "," (member_string "n" name (String ","
        (member_number "t" (format_time now) (String ","
          (member_string "vs" value (String "}" (String "]" "")))))))))
      as H.
    fold ms in H. exists (String.length ms - 4)%nat. lia. }
  destruct Hlen as (f & Hlen).
  rewrite Hlen. unfold ms. rewrite parse_members_encoded.
  cbn [obind]. rewrite (skip_ws_nonws "]" _ eq_refl). cbn iota.
  cbn [obind skip_ws]. rewrite records_of_encoded. reflexivity.
Qed.

End EncoderFacts.

(** C5: for all [id], [name] and [value], decoding the output of
    [Encode(id, name, value)] yields one record whose effective key, the
    concatenation of base name and name, is [id ++ name] and whose
    string value is [value]. *)
Theorem C5_decode_encode_roundtrip (now : Encoder.wallclock) (id name value : string) :
  exists r,
    Encoder.Decode (Encoder.Encode now id name value) = inr [r] /\
    Encoder.effectiveKey r = (id ++ name)%string /\
    Encoder.stringValue r = Some value.
Proof.
  eexists. split; [apply Decode_Encode|]. split; reflexivity.
Qed.

(** ** The terminal session *)

Section TerminalFacts.
Import Terminal.

Variable EncodeSenML : string -> string -> string -> error + string.

Lemma run_app (a b : list action) (s : session) :
  run EncodeSenML (a ++ b) s =
  let (s1, e1) := run EncodeSenML a s in
  let (s2, e2) := run EncodeSenML b s1 in
  (s2, (e1 ++ e2)%list).
Proof.
  revert s. induction a as [|x a IH]; intros s; cbn [run List.app].
  - destruct (run EncodeSenML b s). reflexivity.
  - destruct (step EncodeSenML x s) as [s1 e1]. rewrite IH.
    destruct (run EncodeSenML a s1) as [s2 e2].
    destruct (run EncodeSenML b s2) as [s3 e3].
    now rewrite List.app_assoc.
Qed.

Lemma done_count_app (a b : list event) :
  done_count (a ++ b) = (done_count a + done_count b)%nat.
Proof. unfold done_count. now rewrite filter_app, length_app. Qed.

(** *** What each operation changes *)

Lemma Write_term (t : term) (p : list Byte.byte) :
  fst (fst (Write EncodeSenML t p)) = resetCounter t (resetTimeout t).
Proof.
  unfold Write. destruct (EncodeSenML _ _ _); [reflexivity|].
  destruct (publish _ _ _); reflexivity.
Qed.

Lemma Write_done (t : term) (p : list Byte.byte) :
  done_count (snd (Write EncodeSenML t p)) = O.
Proof.
  unfold Write. destruct (EncodeSenML _ _ _); [reflexivity|].
  destruct (publish _ _ _); reflexivity.
Qed.

Lemma Send_term (t : term) (p : list Byte.byte) :
  fst (fst (Send t p)) = set_ptmx t (snd (io_Copy_to_file (ptmx t) p)).
Proof.
  unfold Send. destruct (io_Copy_to_file (ptmx t) p) as [[nr [e|]] f]; reflexivity.
Qed.

Lemma Send_done (t : term) (p : list Byte.byte) :
  done_count (snd (Send t p)) = O.
Proof.
  unfold Send. destruct (io_Copy_to_file (ptmx t) p) as [[nr [e|]] f]; reflexivity.
Qed.

Lemma resetCounter_fields (t : term) (d : Z) :
  uuid (resetCounter t d) = uuid t /\
  topic (resetCounter t d) = topic t /\
  resetTimeout (resetCounter t d) = resetTimeout t /\
  timer (resetCounter t d) = timer t /\
  ptmx (resetCounter t d) = ptmx t /\
  publish (resetCounter t d) = publish t.
Proof. unfold resetCounter. destruct (0 <? d); cbn; auto 10. Qed.

Lemma resetCounter_timeout (t : term) (d : Z) :
  timeout (resetCounter t d) = if 0 <? d then d else timeout t.
Proof. unfold resetCounter. destruct (0 <? d); reflexivity. Qed.

Lemma second_mod_512 (z : Z) :
  Int64.sub z second mod 512 = z mod 512.
Proof.
  unfold Int64.sub. rewrite wrap_mod_512.
  replace (z - second) with (z + (-1953125) * 512) by (unfold second; lia).
  apply Z.mod_add. discriminate.
Qed.

(** *** A countdown that is never zero *)

(** While the countdown and the configured timeout are not multiples of
    512 nanoseconds, no step emits the done signal or stops the
    timer. *)
Lemma step_never_zero (d : Z) (a : action) (s : session) :
  d mod 512 <> 0 ->
  timeout (tm s) mod 512 = d mod 512 ->
  resetTimeout (tm s) = d ->
  timeout (tm (fst (step EncodeSenML a s))) mod 512 = d mod 512 /\
  resetTimeout (tm (fst (step EncodeSenML a s))) = d /\
  timer (tm (fst (step EncodeSenML a s))) = timer (tm s) /\
  done_count (snd (step EncodeSenML a s)) = O.
Proof.
  intros Hd Ht Hr. destruct a as [|p|p]; cbn [step].
  - destruct (timer (tm s)) as [[|]|] eqn:Etm; cbn; auto.
    unfold decrementCounter. cbn [timeout set_timeout].
    destruct (Z.eqb_spec (Int64.sub (timeout (tm s)) second) 0) as [E|E].
    + exfalso. pose proof (second_mod_512 (timeout (tm s))) as H.
      rewrite E in H. cbn in H. congruence.
    + cbn. rewrite second_mod_512. auto.
  - destruct (copier s); cbn; auto.
    pose proof (Write_term (tm s) p) as Hw.
    pose proof (Write_done (tm s) p) as Hn.
    destruct (Write EncodeSenML (tm s) p) as [[t1 [nw err]] evs].
    cbn [fst snd] in Hw, Hn. subst t1.
    destruct (resetCounter_fields (tm s) (resetTimeout (tm s)))
      as (_ & _ & Hrt & Htm & _).
    assert (Hto : timeout (resetCounter (tm s) (resetTimeout (tm s))) mod 512
                  = d mod 512).
    { rewrite resetCounter_timeout, Hr. destruct (0 <? d); auto. }
    destruct err; cbn [fst snd tm]; rewrite ?done_count_app, ?Hn;
      repeat split; auto; congruence.
  - pose proof (Send_term (tm s) p) as Hw.
    pose proof (Send_done (tm s) p) as Hn.
    destruct (Send (tm s) p) as [[t1 err] evs].
    cbn [fst snd] in Hw, Hn. subst t1. cbn. auto.
Qed.

Lemma run_never_zero (d : Z) (acts : list action) (s : session) :
  d mod 512 <> 0 ->
  timeout (tm s) mod 512 = d mod 512 ->
  resetTimeout (tm s) = d ->
  timer (tm (fst (run EncodeSenML acts s))) = timer (tm s) /\
  done_count (snd (run EncodeSenML acts s)) = O.
Proof.
  intros Hd. revert s. induction acts as [|a acts IH]; intros s Ht Hr.
  - cbn. auto.
  - cbn [run].
    destruct (step_never_zero d a s Hd Ht Hr) as (H1 & H2 & H3 & H4).
    destruct (step EncodeSenML a s) as [s1 e1]. cbn [fst snd] in *.
    destruct (IH s1 H1 H2) as (H5 & H6).
    destruct (run EncodeSenML acts s1) as [s2 e2]. cbn [fst snd] in *.
    rewrite done_count_app, H4, H6. split; [congruence | reflexivity].
Qed.

(** *** The done signal is emitted at most once *)

Lemma step_done (a : action) (s : session) :
  (done_count (snd (step EncodeSenML a s)) = O /\
   timer (tm (fst (step EncodeSenML a s))) = timer (tm s)) \/
  (done_count (snd (step EncodeSenML a s)) = 1%nat /\
   timer (tm s) = Some Running /\
   timer (tm (fst (step EncodeSenML a s))) = Some Stopped /\
   timeout (tm (fst (step EncodeSenML a s))) = 0).
Proof.
  destruct a as [|p|p]; cbn [step].
  - destruct (timer (tm s)) as [[|]|] eqn:Etm; cbn; auto.
    unfold decrementCounter. cbn [timeout set_timeout].
    destruct (Z.eqb_spec (Int64.sub (timeout (tm s)) second) 0) as [E|E];
      cbn; auto 6.
  - destruct (copier s); cbn; auto.
    pose proof (Write_term (tm s) p) as Hw.
    pose proof (Write_done (tm s) p) as Hn.
    destruct (Write EncodeSenML (tm s) p) as [[t1 [nw err]] evs].
    cbn [fst snd] in Hw, Hn. subst t1.
    destruct (resetCounter_fields (tm s) (resetTimeout (tm s)))
      as (_ & _ & _ & Htm & _).
    left. destruct err; cbn [fst snd tm]; rewrite ?done_count_app, ?Hn; auto.
  - pose proof (Send_term (tm s) p) as Hw.
    pose proof (Send_done (tm s) p) as Hn.
    destruct (Send (tm s) p) as [[t1 err] evs].
    cbn [fst snd] in Hw, Hn. subst t1. cbn. auto.
Qed.

(** Once the timer is stopped, or when it was never started, nothing
    emits the done signal. *)
Lemma run_stopped (acts : list action) (s : session) :
  timer (tm s) <> Some Running ->
  done_count (snd (run EncodeSenML acts s)) = O.
Proof.
  revert s. induction acts as [|a acts IH]; intros s Hs; [reflexivity|].
  cbn [run]. pose proof (step_done a s) as H.
  destruct (step EncodeSenML a s) as [s1 e1]. cbn [fst snd] in H.
  assert (Hs1 : timer (tm s1) <> Some Running /\ done_count e1 = O).
  { destruct H as [(H0 & Ht)|(_ & Hr & _)]; [split; congruence | contradiction]. }
  specialize (IH s1 (proj1 Hs1)).
  destruct (run EncodeSenML acts s1) as [s2 e2]. cbn [snd] in *.
  rewrite done_count_app. lia.
Qed.

(** Whatever the interleaving of ticks, output and input, the done
    signal is emitted at most once. *)
Lemma done_at_most_once (acts : list action) (s : session) :
  (done_count (snd (run EncodeSenML acts s)) <= 1)%nat.
Proof.
  revert s. induction acts as [|a acts IH]; intros s; [cbn; lia|].
  cbn [run]. pose proof (step_done a s) as H.
  destruct (step EncodeSenML a s) as [s1 e1]. cbn [fst snd] in H.
  destruct H as [(H0 & Ht)|(H1 & _ & Hs & _)].
  - specialize (IH s1). destruct (run EncodeSenML acts s1) as [s2 e2].
    cbn [snd] in *. rewrite done_count_app. lia.
  - assert (Hn : timer (tm s1) <> Some Running) by congruence.
    pose proof (run_stopped acts s1 Hn) as H2.
    destruct (run EncodeSenML acts s1) as [s2 e2].
    cbn [snd] in *. rewrite done_count_app. lia.
Qed.

(** *** A countdown of whole seconds *)

(** A running session whose countdown stands at [k] seconds and that
    sees no output emits the done signal at its [k]-th tick, and at no
    other. *)
Lemma countdown_fires_at (acts : list action) (s : session) (k : nat) :
  timer (tm s) = Some Running ->
  timeout (tm s) = Z.of_nat k * second ->
  (0 < k)%nat ->
  Z.of_nat k * second <= Int64.max_int ->
  done_count (snd (run EncodeSenML (filter quiet acts) s))
  = if (ticks acts <? k)%nat then O else 1%nat.
Proof.
  revert s k. induction acts as [|a acts IH]; intros s k Hrun Hto Hk Hmax.
  - cbn. destruct k; [lia | reflexivity].
  - destruct a as [|p|p]; cbn [filter quiet].
    + cbn [run step]. rewrite Hrun. unfold decrementCounter.
      cbn [timeout set_timeout].
      assert (Hsub : Int64.sub (timeout (tm s)) second = Z.of_nat (k - 1) * second).
      { unfold Int64.sub. rewrite Hto.
        replace (Z.of_nat k * second - second) with (Z.of_nat (k - 1) * second)
          by (unfold second; lia).
        apply wrap_small. unfold Int64.in_range.
        unfold second in *. unfold Int64.max_int, Int64.min_int, Int64.half in *.
        lia. }
      rewrite Hsub.
      change (ticks (Tick :: acts)) with (S (ticks acts)).
      destruct (Z.eqb_spec (Z.of_nat (k - 1) * second) 0) as [E|E].
      * assert (k = 1%nat) by (unfold second in E; lia). subst k.
        set (s1 := mkSession _ _ _).
        assert (Hs1 : timer (tm s1) <> Some Running) by (cbn; discriminate).
        pose proof (run_stopped (filter quiet acts) s1 Hs1) as H0.
        destruct (run EncodeSenML (filter quiet acts) s1) as [s2 e2].
        cbn [snd] in H0 |- *. rewrite done_count_app, H0. reflexivity.
      * assert (Hk1 : (0 < k - 1)%nat) by (unfold second in E; lia).
        set (s1 := mkSession _ _ _).
        assert (H1 : timer (tm s1) = Some Running) by (cbn; assumption).
        assert (H2 : timeout (tm s1) = Z.of_nat (k - 1) * second) by reflexivity.
        assert (H3 : Z.of_nat (k - 1) * second <= Int64.max_int)
          by (unfold second in *; lia).
        specialize (IH s1 (k - 1)%nat H1 H2 Hk1 H3).
        destruct (run EncodeSenML (filter quiet acts) s1) as [s2 e2].
        cbn [snd List.app] in IH |- *. rewrite IH.
        destruct (Nat.ltb_spec (ticks acts) (k - 1));
          destruct (Nat.ltb_spec (S (ticks acts)) k); lia.
    + change (ticks (Output p :: acts)) with (ticks acts). now apply IH.
    + change (ticks (Input p :: acts)) with (ticks acts).
      cbn [run step].
      pose proof (Send_term (tm s) p) as Hw.
      pose proof (Send_done (tm s) p) as Hn.
      destruct (Send (tm s) p) as [[t1 err] evs].
      cbn [fst snd] in Hw, Hn. subst t1.
      set (s1 := mkSession _ _ _).
      specialize (IH s1 k Hrun Hto Hk Hmax).
      destruct (run EncodeSenML (filter quiet acts) s1) as [s2 e2].
      cbn [snd] in IH |- *. rewrite done_count_app, Hn, IH. reflexivity.
Qed.

(** *** The fields that never change *)

Lemma step_fields (a : action) (s : session) :
  uuid (tm (fst (step EncodeSenML a s))) = uuid (tm s) /\
  topic (tm (fst (step EncodeSenML a s))) = topic (tm s) /\
  resetTimeout (tm (fst (step EncodeSenML a s))) = resetTimeout (tm s) /\
  publish (tm (fst (step EncodeSenML a s))) = publish (tm s).
Proof.
  destruct a as [|p|p]; cbn [step].
  - destruct (timer (tm s)) as [[|]|]; cbn; auto.
    unfold decrementCounter. cbn [timeout set_timeout].
    destruct (_ =? 0); cbn; auto.
  - destruct (copier s); cbn; auto.
    pose proof (Write_term (tm s) p) as Hw.
    destruct (Write EncodeSenML (tm s) p) as [[t1 [nw err]] evs].
    cbn [fst] in Hw. subst t1.
    destruct (resetCounter_fields (tm s) (resetTimeout (tm s)))
      as (H1 & H2 & H3 & _ & _ & H4).
    destruct err; cbn [fst tm]; auto.
  - pose proof (Send_term (tm s) p) as Hw.
    destruct (Send (tm s) p) as [[t1 err] evs].
    cbn [fst] in Hw. subst t1. cbn. auto.
Qed.

Lemma run_fields (acts : list action) (s : session) :
  uuid (tm (fst (run EncodeSenML acts s))) = uuid (tm s) /\
  topic (tm (fst (run EncodeSenML acts s))) = topic (tm s) /\
  resetTimeout (tm (fst (run EncodeSenML acts s))) = resetTimeout (tm s) /\
  publish (tm (fst (run EncodeSenML acts s))) = publish (tm s).
Proof.
  revert s. induction acts as [|a acts IH]; intros s; [cbn; auto|].
  cbn [run]. pose proof (step_fields a s) as H.
  destruct (step EncodeSenML a s) as [s1 e1]. cbn [fst] in H.
  specialize (IH s1). destruct (run EncodeSenML acts s1) as [s2 e2].
  cbn [fst] in *. intuition congruence.
Qed.

(** *** The session against its specification *)

(** C1 (evaluation of the code): a session created with a timeout of
    1.5 seconds never emits the done signal and never stops its timer,
    whatever the interleaving of ticks, output and input, although its
    countdown is below zero after two ticks: the countdown passes zero
    unobserved. *)
Theorem C1_fractional_timeout_never_done (uuid : string)
    (publish : string -> string -> option error) (f : pty)
    (acts : list action) :
  exists s0,
    NewSession uuid 1500000000 publish (inr f) = (Some s0, None) /\
    done_count (snd (run EncodeSenML acts s0)) = O /\
    timer (tm (fst (run EncodeSenML acts s0))) = Some Running /\
    timeout (tm (fst (run EncodeSenML [Tick; Tick] s0))) = -500000000.
Proof.
  eexists. split; [reflexivity|].
  set (s0 := mkSession _ _ _).
  destruct (run_never_zero 1500000000 acts s0) as (H1 & H2);
    [discriminate | reflexivity | reflexivity |].
  split; [exact H2|]. split; [rewrite H1; reflexivity | reflexivity].
Qed.

(** C2: a session created with a timeout of 3 seconds that receives no
    output emits the done signal at its third tick, once, and never
    again: after any schedule without output the signal has been
    emitted once if the schedule holds three ticks or more, and not at
    all otherwise. *)
Theorem C2_three_ticks_fire_once (uuid : string)
    (publish : string -> string -> option error) (f : pty)
    (acts : list action) :
  exists s0,
    NewSession uuid (3 * second) publish (inr f) = (Some s0, None) /\
    done_count (snd (run EncodeSenML (filter quiet acts) s0))
    = if (ticks acts <? 3)%nat then O else 1%nat.
Proof.
  eexists. split; [reflexivity|].
  apply countdown_fires_at; [reflexivity | reflexivity | lia | discriminate].
Qed.


(** C4 (amended): when the shell cannot be spawned, [NewSession]
    returns the error, and with it the session record without pty and
    without timer: neither the copy task nor the countdown was started,
    so that no tick and no output ever changes it or emits anything. *)
Theorem C4_spawn_failure_starts_nothing (uuid : string) (d : Z)
    (publish : string -> string -> option error) (err : error)
    (acts : list action) :
  exists s,
    NewSession uuid d publish (inl err) = (Some s, Some (errorsNew (Error err))) /\
    ptmx (tm s) = None /\
    timer (tm s) = None /\
    copier s = false /\
    run EncodeSenML (filter spontaneous acts) s = (s, []).
Proof.
  eexists. split; [reflexivity|]. repeat split.
  induction acts as [|a acts IH]; [reflexivity|].
  destruct a; cbn [filter spontaneous]; try exact IH;
    cbn [run step tm timer copier]; rewrite IH; reflexivity.
Qed.

(** C8: when encoding or publishing the chunk fails, [Write] returns
    the error together with the full length of its input. *)
Theorem C8_write_failure_reports_full_length (t : term) (p : list Byte.byte) :
  (exists e, EncodeSenML (uuid t) terminal (string_of_list_byte p) = inl e) \/
  (exists payload e,
     EncodeSenML (uuid t) terminal (string_of_list_byte p) = inr payload /\
     publish t (topic t) payload = Some e) ->
  exists e, snd (fst (Write EncodeSenML t p)) = (List.length p, Some e).
Proof.
  destruct (resetCounter_fields t (resetTimeout t)) as (Hu & Ht & _ & _ & _ & Hp).
  unfold Write. rewrite Hu, Ht, Hp.
  intros [(e & He)|(payload & e & He & Hpub)]; rewrite He.
  - now exists e.
  - rewrite Hpub. now exists e.
Qed.

End TerminalFacts.




(** *** Concrete runs *)

(** The sample session is the one created with a timeout of three
    seconds, after two ticks. *)
Example stale_reached :
  exists s0,
    Terminal.NewSession "c0ffee" (3 * Terminal.second) Samples.disconnected
      (inr Samples.freshPty) = (Some s0, None) /\
    Terminal.tm (fst (Terminal.run Samples.encoder
                        [Terminal.Tick; Terminal.Tick] s0)) = Samples.stale.
Proof. eexists. split; reflexivity. Qed.



(** C4, the claim as stated: the shell cannot be spawned, and the
    caller receives a session together with the error. *)
Lemma C4_session_returned_with_error :
  exists s e,
    Terminal.NewSession "c0ffee" (3 * Terminal.second) Samples.connected
      (inl (Terminal.Err "fork/exec /usr/bin/bash: no such file or directory"))
    = (Some s, Some e) /\
    Terminal.ptmx (Terminal.tm s) = None /\
    Terminal.timer (Terminal.tm s) = None.
Proof.
  eexists. eexists. split; [reflexivity|]. split; reflexivity.
Qed.


(** C8 on the sample session, whose [publish] fails. *)
Lemma C8_witness :
  (exists payload e,
     Samples.encoder (Terminal.uuid Samples.stale) Terminal.terminal
       (string_of_list_byte Samples.chunk) = inr payload /\
     Terminal.publish Samples.stale (Terminal.topic Samples.stale) payload = Some e) /\
  exists e,
    snd (fst (Terminal.Write Samples.encoder Samples.stale Samples.chunk))
    = (3%nat, Some e).
Proof.
  split.
  - eexists. eexists. split; reflexivity.
  - apply (C8_write_failure_reports_full_length Samples.encoder Samples.stale
             Samples.chunk).
    right. eexists. eexists. split; reflexivity.
Defined.

(** ** The bootstrap procedure *)

Section BootstrapFacts.
Import Bootstrap.

Variable E : env.

(** *** Parsing the retry count *)

Lemma parse_digits_range (s0 s : string) (n m : Z) :
  0 <= n <= maxUint64 ->
  parse_digits s0 s n = inr m ->
  0 <= m <= maxUint64.
Proof.
  revert n. induction s as [|c s IH]; intros n Hn H; cbn [parse_digits] in H.
  - now inversion H; subst.
  - destruct (is_digit c) eqn:Hc; [|discriminate].
    destruct (cutoff <=? n); [discriminate|].
    destruct (Z.ltb_spec maxUint64 (n * 10 + (Z.of_N (N_of_ascii c) - 48)));
      [discriminate|].
    refine (IH _ _ H).
    unfold is_digit in Hc. apply andb_prop in Hc. destruct Hc as [H1 _].
    apply N.leb_le in H1. lia.
Qed.

Lemma ParseUint_range (s : string) (n : Z) :
  ParseUint s = inr n -> 0 <= n <= maxUint64.
Proof.
  unfold ParseUint. destruct s; [discriminate|].
  apply parse_digits_range. unfold maxUint64. lia.
Qed.

(** The signed reading of an unsigned count is the count itself, or is
    negative. *)
Lemma int_cases (u : Z) :
  0 <= u <= maxUint64 ->
  (u <= Int64.max_int /\ int u = u) \/ (Int64.max_int < u /\ int u < 0).
Proof.
  unfold maxUint64, int, Int64.wrap, Int64.max_int, Int64.half, Int64.modulus.
  change (2 ^ 64) with 18446744073709551616.
  change (2 ^ 63) with 9223372036854775808.
  intros H. Z.div_mod_to_equations. lia.
Qed.

Lemma int_le (u : Z) : 0 <= u <= maxUint64 -> int u <= u.
Proof. intros H. destruct (int_cases u H); lia. Qed.

(** *** Traces *)

Lemma bind_fst {A B} (m : M A) (k : A -> M B) :
  fst (bind m k) = fst (k (fst m)).
Proof. unfold bind. destruct m as [a t1]. cbn. now destruct (k a). Qed.

Lemma bind_snd {A B} (m : M A) (k : A -> M B) :
  snd (bind m k) = (snd m ++ snd (k (fst m)))%list.
Proof. unfold bind. destruct m as [a t1]. cbn. now destruct (k a). Qed.

Lemma timeline_app (a b : list event) :
  timeline (a ++ b) = (timeline a ++ timeline b)%list.
Proof. apply filter_app. Qed.

Lemma saves_app (a b : list event) :
  saves (a ++ b) = (saves a ++ saves b)%list.
Proof. apply filter_app. Qed.

(** A fetch leaves one mark on the timeline, and saves nothing. *)
Lemma getConfig_trace (k : nat) (bsID bsKey bsSvrURL : string) (skipTLS : bool) :
  timeline (snd (getConfig E k bsID bsKey bsSvrURL skipTLS)) = [Fetch k] /\
  saves (snd (getConfig E k bsID bsKey bsSvrURL skipTLS)) = [].
Proof.
  unfold getConfig.
  destruct (systemCertPool E); destruct (newRequest E _);
    try (split; reflexivity);
    destruct (httpDo E _ _ _ _); try (split; reflexivity);
    cbn; destruct (StatusBadRequest <=? _); try (split; reflexivity);
    destruct (Body _); try (split; reflexivity);
    destruct (unmarshalContent E _); try (split; reflexivity);
    cbn; destruct (unmarshalServices E _); try (split; reflexivity);
    destruct (unmarshalDevice E _); split; reflexivity.
Qed.

Lemma failed_attempts_S (d : Z) (k n : nat) :
  failed_attempts d k (S n)
  = (Fetch k :: Sleep d :: failed_attempts d (S k) n)%list.
Proof. reflexivity. Qed.

(** *** The retry loop *)

(** With fuel for the iterations that remain, the loop makes [n] failed
    attempts, each followed by a sleep of the configured delay, and then
    either one successful attempt, after which the function goes on, or
    none: then all attempts are used up and the function returns nil,
    or the loop was not entered. *)
Lemma retryLoop_spec (cfg : Config) (retries delay : Z) (fuel : nat) :
  forall (i : Z) (dc : deviceConfig),
  0 <= i ->
  (Z.to_nat (int retries - i) <= fuel)%nat ->
  exists (n : nat) (ok : bool),
    timeline (snd (retryLoop E fuel cfg retries delay i dc))
    = (failed_attempts (seconds delay) (Z.to_nat i) n ++
       (if ok then [Fetch (Z.to_nat i + n)] else []))%list /\
    saves (snd (retryLoop E fuel cfg retries delay i dc)) = [] /\
    (forall j, (j < n)%nat -> failed (fetch E cfg (Z.to_nat i + j)) = true) /\
    match fst (retryLoop E fuel cfg retries delay i dc) with
    | Proceed dc' =>
      if ok then
        i + Z.of_nat n < int retries /\
        fetch E cfg (Z.to_nat i + n) = inr dc'
      else n = O /\ int retries <= i /\ dc' = dc
    | Return e =>
      ok = false /\ e = None /\ (0 < n)%nat /\
      i + Z.of_nat n = int retries /\
      In (Log "warn" "Retries exhausted")
         (snd (retryLoop E fuel cfg retries delay i dc))
    | OutOfFuel => False
    end.
Proof.
  induction fuel as [|fuel IH]; intros i dc Hi Hfuel; cbn [retryLoop];
    destruct (Z.ltb_spec i (int retries)) as [Hlt|Hge]; try lia.
  - exists O, false. cbn. repeat split; auto; try lia; intros j Hj; lia.
  - pose proof (getConfig_trace (Z.to_nat i) (ID cfg) (Key cfg) (cfgURL cfg)
                  (SkipTLS cfg)) as (Htl & Hsv).
    assert (Hf : fetch E cfg (Z.to_nat i)
                 = fst (getConfig E (Z.to_nat i) (ID cfg) (Key cfg) (cfgURL cfg)
                          (SkipTLS cfg))) by reflexivity.
    destruct (getConfig E (Z.to_nat i) (ID cfg) (Key cfg) (cfgURL cfg)
                (SkipTLS cfg)) as [[err|dc1] tg].
    + cbn [fst snd] in Htl, Hsv, Hf. cbn [bind emit].
      destruct (Z.eqb_spec i (int retries - 1)) as [Hlast|Hmore].
      * exists 1%nat, false. cbn [ret fst snd].
        rewrite timeline_app, saves_app, Htl, Hsv. cbn.
        repeat split; auto; try lia.
        -- intros j Hj. replace (Z.to_nat i + j)%nat with (Z.to_nat i) by lia.
           now rewrite Hf.
        -- apply in_or_app. right. cbn. auto.
      * destruct (IH (i + 1) zeroDevice ltac:(lia) ltac:(lia))
          as (n & ok & H1 & H2 & H3 & H4).
        destruct (retryLoop E fuel cfg retries delay (i + 1) zeroDevice)
          as [o t]. cbn [fst snd] in H1, H2, H3, H4 |- *.
        exists (S n), ok.
        rewrite timeline_app, saves_app, Htl, Hsv. cbn.
        fold (timeline t). fold (saves t). rewrite H1, H2.
        replace (Z.to_nat (i + 1)) with (S (Z.to_nat i)) in * by lia.
        replace (Z.to_nat i + S n)%nat with (S (Z.to_nat i) + n)%nat by lia.
        split; [reflexivity|]. split; [reflexivity|]. split.
        -- intros [|j] Hj.
           ++ replace (Z.to_nat i + 0)%nat with (Z.to_nat i) by lia.
              now rewrite Hf.
           ++ replace (Z.to_nat i + S j)%nat with (S (Z.to_nat i) + j)%nat by lia.
              apply H3. lia.
        -- destruct o as [dc'|e|]; [|..].
           ++ destruct ok; [split; [lia | tauto] | lia].
           ++ destruct H4 as (Hok & He & Hn & Hsum & Hin).
              repeat split; auto; try lia.
              apply in_or_app. right. cbn. auto.
           ++ exact H4.
    + exists O, true. cbn [bind ret fst snd] in *.
      rewrite timeline_app, saves_app, Htl, Hsv. cbn.
      replace (Z.to_nat i + 0)%nat with (Z.to_nat i) by lia.
      repeat split; auto; try lia; intros j Hj; lia.
  - exists O, false. cbn. repeat split; auto; try lia; intros j Hj; lia.
Qed.

(** *** The statements after the loop *)

Lemma saveExportConfig_timeline (econf : exportConfig) :
  timeline (snd (saveExportConfig E econf)) = [].
Proof.
  unfold saveExportConfig. destruct (stat E _); [reflexivity|].
  cbn. destruct (exportSave E _); reflexivity.
Qed.

Lemma configure_timeline (dc : deviceConfig) (file : string) :
  timeline (snd (configure E dc file)) = [].
Proof.
  unfold configure. destruct (MainfluxChannels dc) as [|ch0 [|ch1 l]];
    try reflexivity.
  destruct (is_data _); rewrite bind_snd, timeline_app,
    saveExportConfig_timeline; reflexivity.
Qed.

Lemma configure_malformed (dc : deviceConfig) (file : string) :
  (List.length (MainfluxChannels dc) < 2)%nat ->
  configure E dc file = (Some ErrMalformedEntity, []).
Proof.
  unfold configure. destruct (MainfluxChannels dc) as [|ch0 [|ch1 l]];
    cbn [List.length]; intros H; try reflexivity. lia.
Qed.

(** *** The whole procedure *)

Lemma Bootstrap_parsed (cfg : Config) (file : string) (retries delay : Z) :
  ParseUint (Retries cfg) = inr retries ->
  retries <> 0 ->
  ParseUint (RetryDelaySec cfg) = inr delay ->
  Bootstrap E cfg file
  = (emit (Log "info" "Requesting config") ;;;
     o <~ retryLoop E (Z.to_nat (int retries)) cfg retries delay 0 zeroDevice ;;
     match o with
     | Proceed dc => r <~ configure E dc file ;; ret (Returned r)
     | Return err => ret (Returned err)
     | OutOfFuel => ret Diverged
     end).
Proof.
  intros H1 H2 H3. unfold Bootstrap. rewrite H1.
  destruct (Z.eqb_spec retries 0); [contradiction|]. now rewrite H3.
Qed.

(** [Bootstrap] always returns: the fuel given to the loop suffices. *)
Lemma Bootstrap_returns (cfg : Config) (file : string) :
  fst (Bootstrap E cfg file) <> Diverged.
Proof.
  unfold Bootstrap.
  destruct (ParseUint (Retries cfg)) as [e|retries]; [discriminate|].
  destruct (retries =? 0); [discriminate|].
  destruct (ParseUint (RetryDelaySec cfg)) as [e|delay]; [discriminate|].
  rewrite !bind_fst.
  destruct (retryLoop_spec cfg retries delay (Z.to_nat (int retries)) 0
              zeroDevice ltac:(lia) ltac:(lia)) as (n & ok & _ & _ & _ & H).
  destruct (fst (retryLoop E _ cfg retries delay 0 zeroDevice));
    [rewrite bind_fst; discriminate | discriminate | contradiction].
Qed.

Lemma fetches_timeline (t : list event) : fetches t = fetches (timeline t).
Proof.
  unfold fetches, timeline. induction t as [|e t IH]; [reflexivity|].
  destruct e; cbn; auto.
Qed.

Lemma fetches_failed_attempts (d : Z) (k n : nat) :
  fetches (failed_attempts d k n) = n.
Proof.
  revert k. induction n as [|n IH]; intros k; [reflexivity|].
  rewrite failed_attempts_S. unfold fetches in *. cbn. now rewrite IH.
Qed.

Lemma fetches_app (a b : list event) :
  fetches (a ++ b) = (fetches a + fetches b)%nat.
Proof. unfold fetches. now rewrite filter_app, length_app. Qed.

(** When the product fits, the sleep lasts the configured number of
    seconds. *)
Lemma seconds_exact (u : Z) :
  0 <= u -> u * Second <= Int64.max_int -> seconds u = u * Second.
Proof.
  intros H0 H1. unfold seconds, Int64.mul.
  assert (Hu : Int64.in_range u).
  { unfold Int64.in_range, Int64.min_int, Int64.max_int, Int64.half, Second in *.
    lia. }
  rewrite (wrap_small u Hu). apply wrap_small.
  unfold Int64.in_range, Int64.min_int, Int64.max_int, Int64.half, Second in *.
  lia.
Qed.

(** With a retry count [retries] other than zero and a delay, the trace
    of [Bootstrap] shows [n] failed fetches, each followed by a sleep,
    and at most one successful fetch after them; the fetches are at
    most [retries]. *)
Lemma Bootstrap_timeline (cfg : Config) (file : string)
    (retries delay : Z) :
  ParseUint (Retries cfg) = inr retries ->
  retries <> 0 ->
  ParseUint (RetryDelaySec cfg) = inr delay ->
  exists (n : nat) (ok : bool),
    timeline (snd (Bootstrap E cfg file))
    = (failed_attempts (seconds delay) 0 n ++ (if ok then [Fetch n] else []))%list /\
    Z.of_nat (fetches (snd (Bootstrap E cfg file))) <= retries /\
    (Z.of_nat n = retries ->
     fst (Bootstrap E cfg file) = Returned None /\
     In (Log "warn" "Retries exhausted") (snd (Bootstrap E cfg file)) /\
     saves (snd (Bootstrap E cfg file)) = []).
Proof.
  intros H1 H2 H3. rewrite (Bootstrap_parsed cfg file retries delay H1 H2 H3).
  pose proof (ParseUint_range _ _ H1) as Hr.
  pose proof (int_le retries Hr) as Hint.
  destruct (retryLoop_spec cfg retries delay (Z.to_nat (int retries)) 0
              zeroDevice ltac:(lia) ltac:(lia))
    as (n & ok & Ht & Hs & _ & Ho).
  exists n, ok. change (Z.to_nat 0) with O in Ht. cbn [Nat.add] in Ht.
  rewrite !bind_fst, !bind_snd.
  set (L := retryLoop E (Z.to_nat (int retries)) cfg retries delay 0 zeroDevice) in *.
  destruct (fst L) as [dc|e|] eqn:EL; [| |contradiction].
  - assert (Hn : Z.of_nat n + (if ok then 1 else 0) <= retries /\ Z.of_nat n <> retries)
      by (destruct ok; lia).
    rewrite !bind_snd. cbn [emit ret fst snd].
    rewrite fetches_timeline, !timeline_app, configure_timeline, Ht.
    cbn [timeline filter List.app is_fetch is_sleep orb]. rewrite !List.app_nil_r.
    split; [reflexivity|]. split; [|lia].
    rewrite fetches_app, fetches_failed_attempts. destruct ok; cbn; lia.
  - destruct Ho as (Hok & He & Hn & Hsum & Hin). subst ok e.
    cbn [emit ret fst snd].
    rewrite fetches_timeline, !timeline_app, !saves_app, Ht, Hs.
    cbn [timeline saves filter List.app is_fetch is_sleep is_save orb]. rewrite !List.app_nil_r.
    split; [reflexivity|]. split.
    + rewrite fetches_failed_attempts. lia.
    + intros _. split; [reflexivity|]. split; [|reflexivity].
      right. exact Hin.
Qed.

Lemma int_in_range (u : Z) : 0 <= u <= Int64.max_int -> int u = u.
Proof.
  intros H. apply wrap_small. unfold Int64.in_range.
  unfold Int64.max_int, Int64.min_int, Int64.half in *. lia.
Qed.

(** When every attempt fails and the retry count fits an [int],
    [Bootstrap] makes exactly [retries] attempts, sleeps the delay after
    each, logs the warning, saves nothing and returns nil. *)
Lemma Bootstrap_exhausted (cfg : Config) (file : string) (retries delay : Z) :
  ParseUint (Retries cfg) = inr retries ->
  ParseUint (RetryDelaySec cfg) = inr delay ->
  0 < retries <= Int64.max_int ->
  delay <= 9223372036 ->
  (forall k, Z.of_nat k < retries -> failed (fetch E cfg k) = true) ->
  fst (Bootstrap E cfg file) = Returned None /\
  timeline (snd (Bootstrap E cfg file))
  = failed_attempts (delay * 1000000000) 0 (Z.to_nat retries) /\
  fetches (snd (Bootstrap E cfg file)) = Z.to_nat retries /\
  In (Log "warn" "Retries exhausted") (snd (Bootstrap E cfg file)) /\
  saves (snd (Bootstrap E cfg file)) = [].
Proof.
  intros H1 H3 Hr Hd Hfail.
  pose proof (ParseUint_range _ _ H3) as Hdr.
  assert (Hint : int retries = retries) by (apply int_in_range; lia).
  assert (Hsec : seconds delay = delay * 1000000000).
  { apply seconds_exact; [lia|].
    unfold Second, Int64.max_int, Int64.half. lia. }
  rewrite (Bootstrap_parsed cfg file retries delay H1 ltac:(lia) H3).
  destruct (retryLoop_spec cfg retries delay (Z.to_nat (int retries)) 0
              zeroDevice ltac:(lia) ltac:(lia))
    as (n & ok & Ht & Hs & Hf & Ho).
  change (Z.to_nat 0) with O in Ht, Hf, Ho. cbn [Nat.add] in Ht, Hf, Ho.
  rewrite Hint in *. rewrite Hsec in Ht.
  rewrite !bind_fst, !bind_snd.
  set (L := retryLoop E (Z.to_nat retries) cfg retries delay 0 zeroDevice) in *.
  destruct (fst L) as [dc|e|] eqn:EL; [| |contradiction].
  - exfalso. destruct ok; [|lia]. destruct Ho as (Hn & Hdc).
    specialize (Hfail n ltac:(lia)). rewrite Hdc in Hfail. discriminate.
  - destruct Ho as (Hok & He & Hn & Hsum & Hin). subst ok e.
    assert (n = Z.to_nat retries) by lia. subst n.
    cbn [emit ret fst snd].
    rewrite fetches_timeline, !timeline_app, !saves_app, Ht, Hs.
    cbn [timeline saves filter List.app is_fetch is_sleep is_save orb].
    rewrite !List.app_nil_r.
    split; [reflexivity|]. split; [reflexivity|]. split.
    + apply fetches_failed_attempts.
    + split; [|reflexivity]. right. exact Hin.
Qed.

(** Whatever the service answers, the fetches are at most as many as
    the retry count says. *)
Lemma Bootstrap_fetches_bounded (cfg : Config) (file : string) (retries : Z) :
  ParseUint (Retries cfg) = inr retries ->
  Z.of_nat (fetches (snd (Bootstrap E cfg file))) <= retries.
Proof.
  intros H1. pose proof (ParseUint_range _ _ H1) as Hr.
  destruct (Z.eq_dec retries 0) as [Hz|Hz].
  - subst retries. unfold Bootstrap. rewrite H1. cbn. lia.
  - destruct (ParseUint (RetryDelaySec cfg)) as [e|delay] eqn:H3.
    + unfold Bootstrap. rewrite H1, H3.
      destruct (Z.eqb_spec retries 0); [contradiction|]. cbn. lia.
    + destruct (Bootstrap_timeline cfg file retries delay H1 Hz H3)
        as (n & ok & _ & Hb & _). exact Hb.
Qed.

(** C7 (evaluation of the code): for a retry count that fits an [int]
    and a delay whose product with [time.Second] does not wrap around,
    the procedure does what the claim says: never more fetches than
    the retry count, and, when every attempt fails, exactly [retries]
    attempts, a sleep of the configured delay after each, the warning
    logged, nothing saved and nil returned.  For the retry count 2^63
    the conversion [int(retries)] is negative: whatever the service
    does, no attempt is made and [Bootstrap] returns the
    malformed-entity error. *)
Theorem C7_exhaustion_not_fatal_unless_count_overflows :
  (forall (cfg : Config) (file : string) (retries delay : Z),
     ParseUint (Retries cfg) = inr retries ->
     ParseUint (RetryDelaySec cfg) = inr delay ->
     0 < retries <= Int64.max_int ->
     delay <= 9223372036 ->
     (forall k, Z.of_nat k < retries -> failed (fetch E cfg k) = true) ->
     fst (Bootstrap E cfg file) = Returned None /\
     timeline (snd (Bootstrap E cfg file))
     = failed_attempts (delay * 1000000000) 0 (Z.to_nat retries) /\
     fetches (snd (Bootstrap E cfg file)) = Z.to_nat retries /\
     In (Log "warn" "Retries exhausted") (snd (Bootstrap E cfg file)) /\
     saves (snd (Bootstrap E cfg file)) = []) /\
  (forall (cfg : Config) (file : string) (retries : Z),
     ParseUint (Retries cfg) = inr retries ->
     Z.of_nat (fetches (snd (Bootstrap E cfg file))) <= retries) /\
  (forall file : string,
     Bootstrap E (BootstrapSamples.config "9223372036854775808") file
     = (Returned (Some ErrMalformedEntity), [Log "info" "Requesting config"])).
Proof.
  split; [exact Bootstrap_exhausted|].
  split; [exact Bootstrap_fetches_bounded|].
  intros file. reflexivity.
Qed.

(** C9: when the retry count parses to zero, [Bootstrap] logs that the
    environment is used and returns nil at once: it fetches nothing
    and saves nothing. *)
Theorem C9_zero_retries_skips_bootstrap (cfg : Config) (file : string) :
  ParseUint (Retries cfg) = inr 0 ->
  Bootstrap E cfg file
  = (Returned None,
     [Log "info" "No bootstrapping, environment variables will be used"]) /\
  fetches (snd (Bootstrap E cfg file)) = O /\
  requests (snd (Bootstrap E cfg file)) = O /\
  saves (snd (Bootstrap E cfg file)) = [].
Proof.
  intros H. unfold Bootstrap. rewrite H. cbn. auto.
Qed.

(** C10: when the fetch numbered [j] is the first to succeed and the
    device configuration it retrieves has fewer than two channels,
    [Bootstrap] returns the malformed-entity error and saves neither the
    export configuration nor that of the agent. *)
Theorem C10_too_few_channels (cfg : Config) (file : string)
    (retries delay : Z) (j : nat) (dc : deviceConfig) :
  ParseUint (Retries cfg) = inr retries ->
  ParseUint (RetryDelaySec cfg) = inr delay ->
  Z.of_nat j < int retries ->
  (forall k, (k < j)%nat -> failed (fetch E cfg k) = true) ->
  fetch E cfg j = inr dc ->
  (List.length (MainfluxChannels dc) < 2)%nat ->
  fst (Bootstrap E cfg file) = Returned (Some ErrMalformedEntity) /\
  saves (snd (Bootstrap E cfg file)) = [].
Proof.
  intros H1 H3 Hj Hfail Hok Hlen.
  pose proof (ParseUint_range _ _ H1) as Hr.
  pose proof (int_le retries Hr) as Hint.
  rewrite (Bootstrap_parsed cfg file retries delay H1 ltac:(lia) H3).
  destruct (retryLoop_spec cfg retries delay (Z.to_nat (int retries)) 0
              zeroDevice ltac:(lia) ltac:(lia))
    as (n & ok & _ & Hs & Hf & Ho).
  change (Z.to_nat 0) with O in Hf, Ho. cbn [Nat.add] in Hf, Ho.
  rewrite !bind_fst, !bind_snd, !saves_app, Hs.
  destruct (fst (retryLoop E _ cfg retries delay 0 zeroDevice))
    as [dc'|e|]; [| |contradiction].
  - destruct ok; [|lia]. destruct Ho as (Hn & Hdc).
    assert (n = j).
    { destruct (Nat.lt_trichotomy n j) as [Hlt|[Heq|Hgt]]; [|assumption|].
      - specialize (Hfail n Hlt). rewrite Hdc in Hfail. discriminate.
      - specialize (Hf j Hgt). rewrite Hok in Hf. discriminate. }
    subst n. assert (dc' = dc) by congruence. subst dc'.
    rewrite (configure_malformed dc file Hlen). split; reflexivity.
  - destruct Ho as (_ & _ & Hn & Hsum & _).
    assert (Hlt : (j < n)%nat) by lia.
    specialize (Hf j Hlt). rewrite Hok in Hf. discriminate.
Qed.

End BootstrapFacts.

(** *** Concrete runs *)

(** Two attempts against a service that cannot be reached. *)
Example Bootstrap_unreachable_twice :
  Bootstrap.Bootstrap BootstrapSamples.unreachable (BootstrapSamples.config "2")
    "config.toml"
  = (Bootstrap.Returned None,
     [Bootstrap.Log "info" "Requesting config";
      Bootstrap.Fetch 0;
      Bootstrap.Request "http://localhost:9013/things/bootstrap/id-1" "Thing key-1" true;
      Bootstrap.Log "error" "Fetching bootstrap failed";
      Bootstrap.Log "debug" "Retrying...";
      Bootstrap.Sleep 10000000000;
      Bootstrap.Fetch 1;
      Bootstrap.Request "http://localhost:9013/things/bootstrap/id-1" "Thing key-1" true;
      Bootstrap.Log "error" "Fetching bootstrap failed";
      Bootstrap.Log "debug" "Retrying...";
      Bootstrap.Sleep 10000000000;
      Bootstrap.Log "warn" "Retries exhausted";
      Bootstrap.Log "info" "Continuing with local config"]).
Proof. reflexivity. Qed.

(** A retry count of 2^63 or more is negative once converted to [int]:
    the loop is not entered, nothing is fetched, and the empty device
    configuration is rejected. *)
Remark Bootstrap_retries_beyond_int :
  Bootstrap.Bootstrap BootstrapSamples.unreachable
    (BootstrapSamples.config "9223372036854775808") "config.toml"
  = (Bootstrap.Returned (Some Bootstrap.ErrMalformedEntity),
     [Bootstrap.Log "info" "Requesting config"]).
Proof. reflexivity. Qed.

(** C7 with two retries against a service that cannot be reached. *)
Lemma C7_witness :
  (Bootstrap.ParseUint (Bootstrap.Retries (BootstrapSamples.config "2")) = inr 2 /\
   Bootstrap.ParseUint (Bootstrap.RetryDelaySec (BootstrapSamples.config "2")) = inr 10 /\
   0 < 2 <= Int64.max_int /\
   10 <= 9223372036) /\
  fst (Bootstrap.Bootstrap BootstrapSamples.unreachable
         (BootstrapSamples.config "2") "config.toml")
  = Bootstrap.Returned None /\
  Bootstrap.timeline
    (snd (Bootstrap.Bootstrap BootstrapSamples.unreachable
            (BootstrapSamples.config "2") "config.toml"))
  = Bootstrap.failed_attempts (10 * 1000000000) 0 (Z.to_nat 2) /\
  Bootstrap.fetches
    (snd (Bootstrap.Bootstrap BootstrapSamples.unreachable
            (BootstrapSamples.config "2") "config.toml")) = Z.to_nat 2 /\
  In (Bootstrap.Log "warn" "Retries exhausted")
     (snd (Bootstrap.Bootstrap BootstrapSamples.unreachable
             (BootstrapSamples.config "2") "config.toml")) /\
  Bootstrap.saves
    (snd (Bootstrap.Bootstrap BootstrapSamples.unreachable
            (BootstrapSamples.config "2") "config.toml")) = [].
Proof.
  split.
  - split; [reflexivity|]. split; [reflexivity|].
    split; [split; [reflexivity | discriminate] | discriminate].
  - apply (proj1 (C7_exhaustion_not_fatal_unless_count_overflows
                    BootstrapSamples.unreachable)
             (BootstrapSamples.config "2") "config.toml" 2 10);
      [reflexivity | reflexivity | split; [reflexivity | discriminate]
      | discriminate | intros k Hk; reflexivity].
Defined.

(** C9 with the retry count [0]. *)
Lemma C9_witness :
  Bootstrap.ParseUint (Bootstrap.Retries (BootstrapSamples.config "0")) = inr 0 /\
  Bootstrap.Bootstrap BootstrapSamples.secondTry (BootstrapSamples.config "0")
    "config.toml"
  = (Bootstrap.Returned None,
     [Bootstrap.Log "info" "No bootstrapping, environment variables will be used"]).
Proof.
  split; [reflexivity|].
  apply (C9_zero_retries_skips_bootstrap BootstrapSamples.secondTry
           (BootstrapSamples.config "0") "config.toml").
  reflexivity.
Defined.

(** C10 with a service that answers the second request with a
    configuration of one channel. *)
Lemma C10_witness :
  (Bootstrap.ParseUint (Bootstrap.Retries (BootstrapSamples.config "5")) = inr 5 /\
   Bootstrap.ParseUint (Bootstrap.RetryDelaySec (BootstrapSamples.config "5")) = inr 10 /\
   Z.of_nat 1 < Bootstrap.int 5 /\
   Bootstrap.failed
     (Bootstrap.fetch BootstrapSamples.secondTry (BootstrapSamples.config "5") 0) = true /\
   Bootstrap.fetch BootstrapSamples.secondTry (BootstrapSamples.config "5") 1
   = inr BootstrapSamples.oneChannel /\
   (List.length (Bootstrap.MainfluxChannels BootstrapSamples.oneChannel) < 2)%nat) /\
  fst (Bootstrap.Bootstrap BootstrapSamples.secondTry (BootstrapSamples.config "5")
         "config.toml")
  = Bootstrap.Returned (Some Bootstrap.ErrMalformedEntity) /\
  Bootstrap.saves
    (snd (Bootstrap.Bootstrap BootstrapSamples.secondTry
            (BootstrapSamples.config "5") "config.toml")) = [].
Proof.
  split.
  - repeat split; try reflexivity. cbn. lia.
  - apply (C10_too_few_channels BootstrapSamples.secondTry
             (BootstrapSamples.config "5") "config.toml" 5 10 1
             BootstrapSamples.oneChannel);
      try reflexivity.
    + intros k Hk. assert (k = O) by lia. subst k. reflexivity.
    + cbn. lia.
Defined.

(** ** More on the terminal session *)

Section TerminalSchedules.
Import Terminal Schedules.

Variable EncodeSenML : string -> string -> string -> error + string.

Lemma run_stopped_timer (acts : list action) (s : session) :
  timer (tm s) <> Some Running ->
  timer (tm (fst (run EncodeSenML acts s))) = timer (tm s).
Proof.
  revert s. induction acts as [|a acts IH]; intros s Hs; [reflexivity|].
  cbn [run]. pose proof (step_done EncodeSenML a s) as H.
  destruct (step EncodeSenML a s) as [s1 e1]. cbn [fst snd] in H.
  destruct H as [(_ & Ht)|(_ & Hr & _)]; [|contradiction].
  assert (Hs1 : timer (tm s1) <> Some Running) by congruence.
  specialize (IH s1 Hs1).
  destruct (run EncodeSenML acts s1) as [s2 e2]. cbn [fst] in *. congruence.
Qed.

Lemma run_timer_done (acts : list action) (s : session) :
  timer (tm s) = Some Running ->
  (done_count (snd (run EncodeSenML acts s)) = O /\
   timer (tm (fst (run EncodeSenML acts s))) = Some Running) \/
  (done_count (snd (run EncodeSenML acts s)) = 1%nat /\
   timer (tm (fst (run EncodeSenML acts s))) = Some Stopped).
Proof.
  revert s. induction acts as [|a acts IH]; intros s Hs; [left; cbn; auto|].
  cbn [run]. pose proof (step_done EncodeSenML a s) as H.
  destruct (step EncodeSenML a s) as [s1 e1] eqn:Es. cbn [fst snd] in H.
  destruct H as [(H0 & Ht)|(H1 & _ & Hst & _)].
  - assert (Hs1 : timer (tm s1) = Some Running) by congruence.
    specialize (IH s1 Hs1).
    destruct (run EncodeSenML acts s1) as [s2 e2]. cbn [fst snd] in *.
    rewrite done_count_app, H0. exact IH.
  - assert (Hs1 : timer (tm s1) <> Some Running) by congruence.
    pose proof (run_stopped EncodeSenML acts s1 Hs1) as Hd.
    pose proof (run_stopped_timer acts s1 Hs1) as Htm.
    destruct (run EncodeSenML acts s1) as [s2 e2]. cbn [fst snd] in *.
    right. rewrite done_count_app, H1, Hd. split; [reflexivity | congruence].
Qed.

(** X1: whatever the state of a session and whatever the interleaving
    of ticks, output chunks and input, the done signal is sent at most
    once. *)
Theorem X1_done_sent_at_most_once (acts : list action) (s : session) :
  (done_count (snd (run EncodeSenML acts s)) <= 1)%nat.
Proof. apply done_at_most_once. Qed.

(** X2: on a session that [NewSession] has started, the timer is
    stopped exactly when the done signal has been sent: after any
    schedule, either nothing was sent and the timer runs, or the signal
    was sent once and the timer is stopped. *)
Theorem X2_timer_stopped_iff_done (uuid : string) (d : Z)
    (publish : string -> string -> option error) (f : pty)
    (acts : list action) :
  exists s0,
    NewSession uuid d publish (inr f) = (Some s0, None) /\
    ((done_count (snd (run EncodeSenML acts s0)) = O /\
      timer (tm (fst (run EncodeSenML acts s0))) = Some Running) \/
     (done_count (snd (run EncodeSenML acts s0)) = 1%nat /\
      timer (tm (fst (run EncodeSenML acts s0))) = Some Stopped)).
Proof.
  eexists. split; [reflexivity|]. now apply run_timer_done.
Qed.

(** X3: a session created with a timeout of [k] whole seconds, [k]
    positive, that sees no output sends the done signal at its [k]-th
    tick and at no other. *)
Theorem X3_whole_seconds_fire_at_kth_tick (uuid : string) (k : nat)
    (publish : string -> string -> option error) (f : pty)
    (acts : list action) :
  (0 < k)%nat ->
  Z.of_nat k * second <= Int64.max_int ->
  exists s0,
    NewSession uuid (Z.of_nat k * second) publish (inr f) = (Some s0, None) /\
    done_count (snd (run EncodeSenML (filter quiet acts) s0))
    = if (ticks acts <? k)%nat then O else 1%nat.
Proof.
  intros Hk Hmax. eexists. split; [reflexivity|].
  now apply countdown_fires_at.
Qed.

(** *** Output keeps the session alive *)

Lemma decrement_whole (m : nat) :
  Z.of_nat (S m) * second <= Int64.max_int ->
  Int64.sub (Z.of_nat (S m) * second) second = Z.of_nat m * second.
Proof.
  intros H. unfold Int64.sub.
  replace (Z.of_nat (S m) * second - second) with (Z.of_nat m * second)
    by (unfold second; lia).
  apply wrap_small. unfold Int64.in_range.
  unfold second, Int64.max_int, Int64.min_int, Int64.half in *. lia.
Qed.

Lemma keep_alive (k : nat) (acts : list action) :
  (forall a b c, exists payload, EncodeSenML a b c = inr payload) ->
  Z.of_nat k * second <= Int64.max_int ->
  forall (s : session) (j : nat),
  (forall c p, publish (tm s) c p = None) ->
  copier s = true ->
  timer (tm s) = Some Running ->
  resetTimeout (tm s) = Z.of_nat k * second ->
  timeout (tm s) = Z.of_nat (k - j) * second ->
  (j < k)%nat ->
  idle_below k j acts = true ->
  done_count (snd (run EncodeSenML acts s)) = O /\
  timer (tm (fst (run EncodeSenML acts s))) = Some Running.
Proof.
  intros Henc Hmax.
  induction acts as [|a acts IH]; intros s j Hpub Hcop Hrun Hreset Hto Hj Hidle.
  - cbn. auto.
  - destruct a as [|p|p]; cbn [idle_below] in Hidle; cbn [run step].
    + apply andb_prop in Hidle. destruct Hidle as [Hlt Hidle].
      apply Nat.ltb_lt in Hlt.
      rewrite Hrun. unfold decrementCounter. cbn [timeout set_timeout].
      rewrite Hto. replace (k - j)%nat with (S (k - S j)) by lia.
      rewrite decrement_whole
        by (replace (S (k - S j)) with (k - j)%nat by lia;
            unfold second in *; lia).
      destruct (Z.eqb_spec (Z.of_nat (k - S j) * second) 0) as [E|E];
        [unfold second in E; lia|].
      set (s1 := mkSession _ _ _).
      specialize (IH s1 (S j) Hpub Hcop Hrun Hreset eq_refl Hlt Hidle).
      destruct (run EncodeSenML acts s1) as [s2 e2]. exact IH.
    + rewrite Hcop. unfold Write, resetCounter. rewrite Hreset.
      assert (Hpos : (0 <? Z.of_nat k * second) = true)
        by (apply Z.ltb_lt; unfold second; lia).
      rewrite Hpos. cbn [uuid topic publish set_timeout].
      destruct (Henc (uuid (tm s)) terminal (string_of_list_byte p))
        as [payload Ep].
      rewrite Ep, Hpub.
      set (s1 := mkSession _ _ _).
      assert (Hto1 : timeout (tm s1) = Z.of_nat (k - 0) * second)
        by (cbn; now rewrite Nat.sub_0_r).
      specialize (IH s1 O Hpub eq_refl Hrun Hreset Hto1 ltac:(lia) Hidle).
      destruct (run EncodeSenML acts s1) as [s2 e2]. cbn [fst snd] in *.
      rewrite done_count_app. cbn. exact IH.
    + pose proof (Send_term (tm s) p) as Hw.
      pose proof (Send_done (tm s) p) as Hn.
      destruct (Send (tm s) p) as [[t1 err] evs].
      cbn [fst snd] in Hw, Hn. subst t1.
      set (s1 := mkSession _ _ _).
      specialize (IH s1 j Hpub Hcop Hrun Hreset Hto Hj Hidle).
      destruct (run EncodeSenML acts s1) as [s2 e2]. cbn [fst snd] in *.
      rewrite done_count_app, Hn. exact IH.
Qed.

(** X4: on a session created with a timeout of [k] whole seconds whose
    chunks are all encoded and published, output keeps the session
    alive: as long as fewer than [k] ticks pass between one chunk and
    the next, the done signal is not sent and the timer runs. *)
Theorem X4_output_keeps_session_alive (uuid : string) (k : nat)
    (publish : string -> string -> option error) (f : pty)
    (acts : list action) :
  (forall a b c, exists payload, EncodeSenML a b c = inr payload) ->
  (forall c p, publish c p = None) ->
  (0 < k)%nat ->
  Z.of_nat k * second <= Int64.max_int ->
  idle_below k 0 acts = true ->
  exists s0,
    NewSession uuid (Z.of_nat k * second) publish (inr f) = (Some s0, None) /\
    done_count (snd (run EncodeSenML acts s0)) = O /\
    timer (tm (fst (run EncodeSenML acts s0))) = Some Running.
Proof.
  intros Henc Hpub Hk Hmax Hidle. eexists. split; [reflexivity|].
  apply (keep_alive k acts Henc Hmax _ O); auto.
  cbn. now rewrite Nat.sub_0_r.
Qed.

(** *** A timeout that is not positive *)

Lemma never_expires_nonpositive (acts : list action) :
  forall s : session,
  timeout (tm s) <= 0 ->
  resetTimeout (tm s) <= 0 ->
  Int64.min_int <= timeout (tm s) - Z.of_nat (ticks acts) * second ->
  done_count (snd (run EncodeSenML acts s)) = O.
Proof.
  induction acts as [|a acts IH]; intros s Hto Hreset Hmin; [reflexivity|].
  destruct a as [|p|p]; cbn [run step].
  - change (ticks (Tick :: acts)) with (S (ticks acts)) in Hmin.
    destruct (timer (tm s)) as [[|]|].
    + unfold decrementCounter. cbn [timeout set_timeout].
      assert (Hsub : Int64.sub (timeout (tm s)) second = timeout (tm s) - second).
      { apply wrap_small. unfold Int64.in_range.
        unfold second, Int64.max_int, Int64.min_int, Int64.half in *. lia. }
      rewrite Hsub.
      destruct (Z.eqb_spec (timeout (tm s) - second) 0) as [E|E];
        [unfold second in E; lia|].
      set (s1 := mkSession _ _ _).
      specialize (IH s1). cbn [tm timeout resetTimeout set_timeout s1] in IH.
      specialize (IH ltac:(unfold second; lia) Hreset
                     ltac:(unfold second in *; lia)).
      destruct (run EncodeSenML acts s1) as [s2 e2]. exact IH.
    + specialize (IH s Hto Hreset ltac:(unfold second in *; lia)).
      destruct (run EncodeSenML acts s) as [s2 e2]. exact IH.
    + specialize (IH s Hto Hreset ltac:(unfold second in *; lia)).
      destruct (run EncodeSenML acts s) as [s2 e2]. exact IH.
  - change (ticks (Output p :: acts)) with (ticks acts) in Hmin.
    destruct (copier s).
    + pose proof (Write_term EncodeSenML (tm s) p) as Hw.
      pose proof (Write_done EncodeSenML (tm s) p) as Hn.
      destruct (Write EncodeSenML (tm s) p) as [[t1 [nw err]] evs].
      cbn [fst snd] in Hw, Hn.
      assert (Hr : resetCounter (tm s) (resetTimeout (tm s)) = tm s).
      { unfold resetCounter.
        destruct (Z.ltb_spec 0 (resetTimeout (tm s))); [lia | reflexivity]. }
      rewrite Hr in Hw. subst t1.
      destruct err as [e|].
      * set (s1 := mkSession _ _ _).
        specialize (IH s1 Hto Hreset Hmin).
        destruct (run EncodeSenML acts s1) as [s2 e2]. cbn [snd] in *.
        rewrite !done_count_app, Hn, IH. reflexivity.
      * set (s1 := mkSession _ _ _).
        specialize (IH s1 Hto Hreset Hmin).
        destruct (run EncodeSenML acts s1) as [s2 e2]. cbn [snd] in *.
        rewrite done_count_app, Hn, IH. reflexivity.
    + specialize (IH s Hto Hreset Hmin).
      destruct (run EncodeSenML acts s) as [s2 e2]. exact IH.
  - change (ticks (Input p :: acts)) with (ticks acts) in Hmin.
    pose proof (Send_term (tm s) p) as Hw.
    pose proof (Send_done (tm s) p) as Hn.
    destruct (Send (tm s) p) as [[t1 err] evs].
    cbn [fst snd] in Hw, Hn. subst t1.
    set (s1 := mkSession _ _ _).
    specialize (IH s1 Hto Hreset Hmin).
    destruct (run EncodeSenML acts s1) as [s2 e2]. cbn [snd] in *.
    rewrite done_count_app, Hn, IH. reflexivity.
Qed.

(** X5: a session created with a timeout that is zero or negative does
    not expire: output does not reset its countdown, the ticks drive it
    further below zero, and the done signal is not sent for as long as
    the countdown does not wrap around. *)
Theorem X5_nonpositive_timeout_never_expires (uuid : string) (d : Z)
    (publish : string -> string -> option error) (f : pty)
    (acts : list action) :
  d <= 0 ->
  Int64.min_int <= d - Z.of_nat (ticks acts) * second ->
  exists s0,
    NewSession uuid d publish (inr f) = (Some s0, None) /\
    done_count (snd (run EncodeSenML acts s0)) = O.
Proof.
  intros Hd Hmin. eexists. split; [reflexivity|].
  now apply never_expires_nonpositive.
Qed.

(** *** What is published, and when *)

Lemma Write_on_channel (t : term) (p : list Byte.byte) :
  Forall (on_channel (topic t)) (snd (Write EncodeSenML t p)).
Proof.
  destruct (resetCounter_fields t (resetTimeout t)) as (_ & Ht & _).
  unfold Write. destruct (EncodeSenML _ _ _); [constructor|].
  rewrite Ht. destruct (publish _ _ _); repeat constructor.
Qed.

Lemma step_on_channel (a : action) (s : session) :
  Forall (on_channel (topic (tm s))) (snd (step EncodeSenML a s)).
Proof.
  destruct a as [|p|p]; cbn [step].
  - destruct (timer (tm s)) as [[|]|]; try constructor.
    unfold decrementCounter. destruct (_ =? 0); repeat constructor.
  - destruct (copier s); [|constructor].
    pose proof (Write_on_channel (tm s) p) as H.
    destruct (Write EncodeSenML (tm s) p) as [[t1 [nw err]] evs].
    cbn [snd] in H. destruct err; cbn [snd]; [|exact H].
    apply Forall_app. split; [exact H | repeat constructor].
  - unfold Send. destruct (io_Copy_to_file _ _) as [[nr [e|]] f];
      repeat constructor.
Qed.

Lemma run_on_channel (acts : list action) (s : session) :
  Forall (on_channel (topic (tm s))) (snd (run EncodeSenML acts s)).
Proof.
  revert s. induction acts as [|a acts IH]; intros s; [constructor|].
  cbn [run]. pose proof (step_on_channel a s) as H.
  destruct (step_fields EncodeSenML a s) as (_ & Ht & _).
  destruct (step EncodeSenML a s) as [s1 e1]. cbn [fst snd] in *.
  specialize (IH s1). rewrite Ht in IH.
  destruct (run EncodeSenML acts s1) as [s2 e2]. cbn [snd] in *.
  apply Forall_app. split; assumption.
Qed.

(** X6: whatever happens to a session created for [uuid], every call
    of [publish] it makes is on the channel [term/uuid]. *)
Theorem X6_publishes_only_on_own_topic (uuid : string) (d : Z)
    (publish : string -> string -> option error) (f : pty)
    (acts : list action) :
  exists s0,
    NewSession uuid d publish (inr f) = (Some s0, None) /\
    Forall (on_channel ("term/" ++ uuid)) (snd (run EncodeSenML acts s0)).
Proof.
  eexists. split; [reflexivity|].
  set (s0 := mkSession _ _ _).
  change ("term/" ++ uuid)%string with (topic (tm s0)).
  apply run_on_channel.
Qed.

Lemma run_without_copier (acts : list action) (s : session) :
  copier s = false ->
  run EncodeSenML acts s = run EncodeSenML (filter quiet acts) s /\
  publish_count (snd (run EncodeSenML acts s)) = O.
Proof.
  revert s. induction acts as [|a acts IH]; intros s Hc; [split; reflexivity|].
  destruct a as [|p|p]; cbn [filter quiet run step].
  - destruct (timer (tm s)) as [[|]|].
    + unfold decrementCounter.
      destruct (_ =? 0);
        match goal with
        | |- context [run EncodeSenML acts ?x] =>
          destruct (IH x Hc) as (H1 & H2); rewrite <- H1;
          destruct (run EncodeSenML acts x) as [s2 e2]; cbn [snd] in *;
          split; [reflexivity | exact H2]
        end.
    + destruct (IH s Hc) as (H1 & H2). rewrite <- H1.
      destruct (run EncodeSenML acts s) as [s2 e2]. split; [reflexivity | exact H2].
    + destruct (IH s Hc) as (H1 & H2). rewrite <- H1.
      destruct (run EncodeSenML acts s) as [s2 e2]. split; [reflexivity | exact H2].
  - rewrite Hc. destruct (IH s Hc) as (H1 & H2). rewrite <- H1.
    destruct (run EncodeSenML acts s) as [s2 e2]. split; [reflexivity | exact H2].
  - unfold Send. destruct (io_Copy_to_file _ _) as [[nr [e|]] f];
      match goal with
      | |- context [run EncodeSenML acts ?x] =>
        destruct (IH x Hc) as (H1 & H2); rewrite <- H1;
        destruct (run EncodeSenML acts x) as [s2 e2]; cbn [snd] in *;
        split; [reflexivity | exact H2]
      end.
Qed.

(** X7: when the delivery of a chunk fails, the task that copies the
    output ends: from then on nothing is published, and the session
    goes on as if the shell produced no output, so that no later chunk
    resets its countdown. *)
Theorem X7_failed_delivery_ends_output (s : session) (p : list Byte.byte)
    (e : error) (acts : list action) :
  copier s = true ->
  snd (snd (fst (Write EncodeSenML (tm s) p))) = Some e ->
  run EncodeSenML acts (fst (step EncodeSenML (Output p) s))
  = run EncodeSenML (filter quiet acts) (fst (step EncodeSenML (Output p) s)) /\
  publish_count
    (snd (run EncodeSenML acts (fst (step EncodeSenML (Output p) s)))) = O.
Proof.
  intros Hc He. apply run_without_copier.
  cbn [step]. rewrite Hc.
  destruct (Write EncodeSenML (tm s) p) as [[t1 [nw err]] evs].
  cbn [fst snd] in He. subst err. reflexivity.
Qed.

(** *** Input *)

Lemma run_inputs (acts : list action) :
  forall (s : session) (h : pty),
  ptmx (tm s) = Some h ->
  room h = None ->
  ptmx (tm (fst (run EncodeSenML acts s)))
  = Some (mkPty (input h ++ inputs acts) None).
Proof.
  induction acts as [|a acts IH]; intros s h Hp Hr.
  - cbn. rewrite List.app_nil_r, Hp. destruct h as [i r]. cbn in *. now subst r.
  - assert (Hgo : forall s1 e1,
               ptmx (tm s1) = Some h ->
               ptmx (tm (fst (let (s2, e2) := run EncodeSenML acts s1 in
                               (s2, (e1 ++ e2)%list))))
               = Some (mkPty (input h ++ inputs acts) None)).
    { intros s1 e1 H1. specialize (IH s1 h H1 Hr).
      destruct (run EncodeSenML acts s1) as [s2 e2]. exact IH. }
    destruct a as [|p|p]; cbn [run step inputs].
    + destruct (timer (tm s)) as [[|]|]; try (apply Hgo; exact Hp).
      unfold decrementCounter. destruct (_ =? 0); apply Hgo; exact Hp.
    + destruct (copier s); [|apply Hgo; exact Hp].
      pose proof (Write_term EncodeSenML (tm s) p) as Hw.
      destruct (Write EncodeSenML (tm s) p) as [[t1 [nw err]] evs].
      cbn [fst] in Hw.
      destruct (resetCounter_fields (tm s) (resetTimeout (tm s)))
        as (_ & _ & _ & _ & Hpt & _).
      destruct err; apply Hgo; cbn [tm]; congruence.
    + pose proof (Send_term (tm s) p) as Hw.
      destruct (Send (tm s) p) as [[t1 err] evs]. cbn [fst] in Hw. subst t1.
      rewrite Hp.
      assert (Hcopy : snd (io_Copy_to_file (Some h) p)
                      = Some (mkPty (input h ++ p) None)).
      { unfold io_Copy_to_file, File_Write. rewrite Hr.
        destruct p; [|reflexivity].
        cbn. rewrite List.app_nil_r. destruct h as [i r]. cbn in *. now subst r. }
      rewrite Hcopy.
      set (s1 := mkSession _ _ _).
      specialize (IH s1 (mkPty (input h ++ p) None) eq_refl eq_refl).
      destruct (run EncodeSenML acts s1) as [s2 e2]. cbn [fst input] in *.
      now rewrite IH, List.app_assoc.
Qed.

(** X9: on a session whose pty takes all that it is given, the bytes
    sent as input reach the pty in the order in which they were sent,
    whatever ticks and output chunks come in between, and also after
    the done signal. *)
Theorem X9_input_reaches_pty_in_order (uuid : string) (d : Z)
    (publish : string -> string -> option error) (f : pty)
    (acts : list action) :
  room f = None ->
  exists s0,
    NewSession uuid d publish (inr f) = (Some s0, None) /\
    ptmx (tm (fst (run EncodeSenML acts s0)))
    = Some (mkPty (input f ++ inputs acts) None).
Proof.
  intros Hr. eexists. split; [reflexivity|].
  now apply run_inputs.
Qed.

End TerminalSchedules.

(** ** More on the bootstrap procedure *)

Section BootstrapMore.
Import Bootstrap BootstrapViews.

Variable E : env.

(** *** Settings that are not numbers *)

Lemma parse_digits_nondigit (s0 s : string) (n : Z) :
  has_nondigit s = true -> exists e, parse_digits s0 s n = inl e.
Proof.
  revert n. induction s as [|c s IH]; intros n H; [discriminate|].
  cbn [has_nondigit parse_digits] in *.
  destruct (is_digit c); [|eauto].
  destruct (cutoff <=? n); [eauto|].
  destruct (maxUint64 <? _); [eauto|]. apply IH. exact H.
Qed.

Lemma ParseUint_invalid (s : string) :
  s = "" \/ has_nondigit s = true -> exists e, ParseUint s = inl e.
Proof.
  intros [H|H]; [subst; cbn; eauto|].
  unfold ParseUint. destruct s; [discriminate|].
  now apply parse_digits_nondigit.
Qed.

(** X8: when the retry count of the configuration is empty or holds a
    character that is not a digit, [Bootstrap] returns an error that
    names the setting and does nothing else: no log entry, no fetch, no
    file saved. *)
Theorem X8_retries_not_a_number (cfg : Config) (file : string) :
  Retries cfg = "" \/ has_nondigit (Retries cfg) = true ->
  exists e,
    Bootstrap E cfg file
    = (Returned (Some (errorsNewf "Invalid BOOTSTRAP_RETRIES value: %s" e)), []).
Proof.
  intros H. destruct (ParseUint_invalid _ H) as [e He].
  exists e. unfold Bootstrap. now rewrite He.
Qed.

(** X10: when the retry count is a number other than zero and the delay
    is empty or holds a character that is not a digit, [Bootstrap]
    returns an error that names the delay before it fetches
    anything. *)
Theorem X10_delay_not_a_number (cfg : Config) (file : string) (retries : Z) :
  ParseUint (Retries cfg) = inr retries ->
  retries <> 0 ->
  RetryDelaySec cfg = "" \/ has_nondigit (RetryDelaySec cfg) = true ->
  exists e,
    Bootstrap E cfg file
    = (Returned
         (Some (errorsNewf "Invalid BOOTSTRAP_RETRY_DELAY_SECONDS value: %s" e)),
       []).
Proof.
  intros Hr Hz H. destruct (ParseUint_invalid _ H) as [e He].
  exists e. unfold Bootstrap. rewrite Hr.
  destruct (Z.eqb_spec retries 0); [contradiction|]. now rewrite He.
Qed.

(** *** A retry count beyond the range of [int] *)

(** X11: a retry count above the largest [int] is negative once
    converted: the loop is not entered, nothing is fetched even when
    the service is there, and [Bootstrap] returns the malformed-entity
    error for the empty device configuration. *)
Theorem X11_retries_beyond_int (cfg : Config) (file : string)
    (retries delay : Z) :
  ParseUint (Retries cfg) = inr retries ->
  ParseUint (RetryDelaySec cfg) = inr delay ->
  Int64.max_int < retries ->
  Bootstrap E cfg file
  = (Returned (Some ErrMalformedEntity), [Log "info" "Requesting config"]).
Proof.
  intros Hr Hd Hbig.
  pose proof (ParseUint_range _ _ Hr) as Hrange.
  destruct (int_cases retries Hrange) as [[Hle _]|[_ Hneg]]; [lia|].
  rewrite (Bootstrap_parsed E cfg file retries delay Hr
             ltac:(unfold Int64.max_int, Int64.half in Hbig; lia) Hd).
  replace (Z.to_nat (int retries)) with O by lia.
  cbn [retryLoop].
  destruct (Z.ltb_spec 0 (int retries)); [lia|]. reflexivity.
Qed.

(** *** The first fetch that succeeds *)

Lemma retryLoop_first_success (cfg : Config) (retries delay : Z) (j : nat)
    (dc : deviceConfig) :
  Z.of_nat j < int retries ->
  (forall k, (k < j)%nat -> failed (fetch E cfg k) = true) ->
  fetch E cfg j = inr dc ->
  fst (retryLoop E (Z.to_nat (int retries)) cfg retries delay 0 zeroDevice)
  = Proceed dc /\
  timeline (snd (retryLoop E (Z.to_nat (int retries)) cfg retries delay 0
                   zeroDevice))
  = (failed_attempts (seconds delay) 0 j ++ [Fetch j])%list /\
  saves (snd (retryLoop E (Z.to_nat (int retries)) cfg retries delay 0
                zeroDevice)) = [].
Proof.
  intros Hj Hfail Hok.
  destruct (retryLoop_spec E cfg retries delay (Z.to_nat (int retries)) 0
              zeroDevice ltac:(lia) ltac:(lia))
    as (n & ok & Ht & Hs & Hf & Ho).
  change (Z.to_nat 0) with O in Ht, Hf, Ho. cbn [Nat.add] in Ht, Hf, Ho.
  destruct (fst (retryLoop E _ cfg retries delay 0 zeroDevice))
    as [dc'|e|]; [| |contradiction].
  - destruct ok; [|lia]. destruct Ho as (Hn & Hdc).
    assert (n = j).
    { destruct (Nat.lt_trichotomy n j) as [Hlt|[Heq|Hgt]]; [|assumption|].
      - specialize (Hfail n Hlt). rewrite Hdc in Hfail. discriminate.
      - specialize (Hf j Hgt). rewrite Hok in Hf. discriminate. }
    subst n. split; [congruence|]. split; assumption.
  - destruct Ho as (_ & _ & Hn & Hsum & _).
    assert (Hlt : (j < n)%nat) by lia.
    specialize (Hf j Hlt). rewrite Hok in Hf. discriminate.
Qed.

Lemma Bootstrap_first_success (cfg : Config) (file : string)
    (retries delay : Z) (j : nat) (dc : deviceConfig) :
  ParseUint (Retries cfg) = inr retries ->
  ParseUint (RetryDelaySec cfg) = inr delay ->
  Z.of_nat j < int retries ->
  (forall k, (k < j)%nat -> failed (fetch E cfg k) = true) ->
  fetch E cfg j = inr dc ->
  exists t,
    saves t = [] /\
    timeline t = (failed_attempts (seconds delay) 0 j ++ [Fetch j])%list /\
    fst (Bootstrap E cfg file) = Returned (fst (configure E dc file)) /\
    snd (Bootstrap E cfg file) = (t ++ snd (configure E dc file))%list.
Proof.
  intros H1 H3 Hj Hfail Hok.
  pose proof (ParseUint_range _ _ H1) as Hr.
  pose proof (int_le retries Hr) as Hint.
  rewrite (Bootstrap_parsed E cfg file retries delay H1 ltac:(lia) H3).
  destruct (retryLoop_first_success cfg retries delay j dc Hj Hfail Hok)
    as (Ho & Ht & Hs).
  exists (Log "info" "Requesting config"
          :: snd (retryLoop E (Z.to_nat (int retries)) cfg retries delay 0
                    zeroDevice)).
  rewrite !bind_fst, !bind_snd, Ho, !bind_fst, !bind_snd.
  cbn [emit ret fst snd List.app]. rewrite List.app_nil_r.
  split; [exact Hs|]. split; [exact Ht|]. split; reflexivity.
Qed.

(** X12: when the fetch numbered [j] is the first to succeed,
    [Bootstrap] has made the [j] failed fetches before it, each
    followed by a sleep of the configured delay, then that fetch, and
    no fetch and no sleep after it. *)
Theorem X12_stops_at_first_success (cfg : Config) (file : string)
    (retries delay : Z) (j : nat) (dc : deviceConfig) :
  ParseUint (Retries cfg) = inr retries ->
  ParseUint (RetryDelaySec cfg) = inr delay ->
  Z.of_nat j < int retries ->
  (forall k, (k < j)%nat -> failed (fetch E cfg k) = true) ->
  fetch E cfg j = inr dc ->
  timeline (snd (Bootstrap E cfg file))
  = (failed_attempts (seconds delay) 0 j ++ [Fetch j])%list /\
  fetches (snd (Bootstrap E cfg file)) = S j.
Proof.
  intros H1 H3 Hj Hfail Hok.
  destruct (Bootstrap_first_success cfg file retries delay j dc H1 H3 Hj Hfail Hok)
    as (t & _ & Ht & _ & Hsnd).
  rewrite fetches_timeline, Hsnd, timeline_app, configure_timeline, Ht.
  rewrite List.app_nil_r. split; [reflexivity|].
  rewrite fetches_app, fetches_failed_attempts. cbn. lia.
Qed.

(** *** What is saved *)

Lemma agent_saves_app (a b : list event) :
  agent_saves (a ++ b) = (agent_saves a ++ agent_saves b)%list.
Proof. apply filter_app. Qed.

Lemma export_saves_app (a b : list event) :
  export_saves (a ++ b) = (export_saves a ++ export_saves b)%list.
Proof. apply filter_app. Qed.

Lemma no_saves (t : list event) :
  saves t = [] -> agent_saves t = [] /\ export_saves t = [].
Proof.
  induction t as [|e t IH]; [split; reflexivity|].
  destruct e; cbn; try discriminate; exact IH.
Qed.

Lemma saveExportConfig_agent_saves (econf : exportConfig) :
  agent_saves (snd (saveExportConfig E econf)) = [].
Proof.
  unfold saveExportConfig. destruct (stat E _); [reflexivity|].
  cbn. destruct (exportSave E _); reflexivity.
Qed.

Lemma configure_saves (dc : deviceConfig) (file : string)
    (ch0 ch1 : Channel) (rest : list Channel) :
  MainfluxChannels dc = ch0 :: ch1 :: rest ->
  exists c,
    fst (configure E dc file) = SaveConfig E c /\
    agent_saves (snd (configure E dc file)) = [SaveAgent c] /\
    Channels c
    = (if is_data (lookup "type" (Metadata ch0))
       then mkChan (chanID ch1) (chanID ch0)
       else mkChan (chanID ch0) (chanID ch1)) /\
    Username (MQTT c) = MainfluxID dc /\
    Password (MQTT c) = MainfluxKey dc /\
    File c = file.
Proof.
  intros H. unfold configure. rewrite H.
  destruct (is_data _); eexists;
    rewrite !bind_fst, !bind_snd, !agent_saves_app,
      saveExportConfig_agent_saves;
    (split; [reflexivity|]); (split; [reflexivity|]);
    (split; [reflexivity|]); (split; [reflexivity|]); split; reflexivity.
Qed.

(** X13: when the first fetch that succeeds retrieves a device
    configuration with two channels or more, [Bootstrap] saves one
    agent configuration and returns what saving it returns.  The
    control channel is the first channel and the data channel the
    second, or the other way round when the metadata of the first
    channel gives it the type [data]; the MQTT user name and password
    are the identifier and the key of the device; the file is the one
    [Bootstrap] was given. *)
Theorem X13_saves_agent_configuration (cfg : Config) (file : string)
    (retries delay : Z) (j : nat) (dc : deviceConfig)
    (ch0 ch1 : Channel) (rest : list Channel) :
  ParseUint (Retries cfg) = inr retries ->
  ParseUint (RetryDelaySec cfg) = inr delay ->
  Z.of_nat j < int retries ->
  (forall k, (k < j)%nat -> failed (fetch E cfg k) = true) ->
  fetch E cfg j = inr dc ->
  MainfluxChannels dc = ch0 :: ch1 :: rest ->
  exists c,
    fst (Bootstrap E cfg file) = Returned (SaveConfig E c) /\
    agent_saves (snd (Bootstrap E cfg file)) = [SaveAgent c] /\
    Channels c
    = (if is_data (lookup "type" (Metadata ch0))
       then mkChan (chanID ch1) (chanID ch0)
       else mkChan (chanID ch0) (chanID ch1)) /\
    Username (MQTT c) = MainfluxID dc /\
    Password (MQTT c) = MainfluxKey dc /\
    File c = file.
Proof.
  intros H1 H3 Hj Hfail Hok Hch.
  destruct (Bootstrap_first_success cfg file retries delay j dc H1 H3 Hj Hfail Hok)
    as (t & Hs & _ & Hfst & Hsnd).
  destruct (configure_saves dc file ch0 ch1 rest Hch)
    as (c & Hc1 & Hc2 & Hc3 & Hc4 & Hc5 & Hc6).
  exists c. rewrite Hfst, Hsnd, agent_saves_app, Hc1, Hc2.
  rewrite (proj1 (no_saves t Hs)). auto 10.
Qed.

(** The file that [saveExportConfig] looks for and writes: the one the
    export configuration of the device names, or the default. *)
Lemma configure_export_kept (dc : deviceConfig) (file : string) :
  stat E (orElse (exFile (Export (SvcsConf dc))) exportConfigFile) = true ->
  export_saves (snd (configure E dc file)) = [].
Proof.
  intros Hstat. unfold configure.
  destruct (MainfluxChannels dc) as [|ch0 [|ch1 l]]; try reflexivity.
  destruct (is_data _); rewrite !bind_snd, !export_saves_app;
    unfold saveExportConfig; cbn [exFile fillExportConfig];
    rewrite Hstat; reflexivity.
Qed.

Lemma configure_export_saved (dc : deviceConfig) (file : string)
    (ch0 ch1 : Channel) (rest : list Channel) :
  MainfluxChannels dc = ch0 :: ch1 :: rest ->
  stat E (orElse (exFile (Export (SvcsConf dc))) exportConfigFile) = false ->
  exists e,
    export_saves (snd (configure E dc file)) = [SaveExport e] /\
    exFile e = orElse (exFile (Export (SvcsConf dc))) exportConfigFile.
Proof.
  intros Hch Hstat. unfold configure. rewrite Hch.
  destruct (is_data _); rewrite !bind_snd, !export_saves_app;
    unfold saveExportConfig; cbn [exFile fillExportConfig];
    rewrite Hstat; cbn [bind emit ret fst snd];
    destruct (exportSave E _); eexists; split; reflexivity.
Qed.

(** X14: an export configuration file that exists is left as it is.
    The file is the one that the export configuration of the retrieved
    device names, or [/configs/export/config.toml] when it names none:
    when [os.Stat] finds that file, [Bootstrap] does not save the
    export configuration; when it does not and the device has two
    channels or more, [Bootstrap] saves it once, under that name. *)
Theorem X14_existing_export_file_kept (cfg : Config) (file : string)
    (retries delay : Z) (j : nat) (dc : deviceConfig) :
  ParseUint (Retries cfg) = inr retries ->
  ParseUint (RetryDelaySec cfg) = inr delay ->
  Z.of_nat j < int retries ->
  (forall k, (k < j)%nat -> failed (fetch E cfg k) = true) ->
  fetch E cfg j = inr dc ->
  (stat E (orElse (exFile (Export (SvcsConf dc))) exportConfigFile) = true ->
   export_saves (snd (Bootstrap E cfg file)) = []) /\
  (stat E (orElse (exFile (Export (SvcsConf dc))) exportConfigFile) = false ->
   (2 <= List.length (MainfluxChannels dc))%nat ->
   exists e,
     export_saves (snd (Bootstrap E cfg file)) = [SaveExport e] /\
     exFile e = orElse (exFile (Export (SvcsConf dc))) exportConfigFile).
Proof.
  intros H1 H3 Hj Hfail Hok.
  destruct (Bootstrap_first_success cfg file retries delay j dc H1 H3 Hj Hfail Hok)
    as (t & Hs & _ & _ & Hsnd).
  rewrite Hsnd, export_saves_app, (proj2 (no_saves t Hs)). cbn [List.app].
  split.
  - apply configure_export_kept.
  - intros Hstat Hlen.
    destruct (MainfluxChannels dc) as [|ch0 [|ch1 rest]] eqn:Hch;
      cbn [List.length] in Hlen; try lia.
    now apply (configure_export_saved dc file ch0 ch1 rest).
Qed.

(** *** The export configuration does not decide the result *)

Lemma retryLoop_set_exportSave (f : exportConfig -> option error)
    (cfg : Config) (retries delay : Z) (fuel : nat) :
  forall i dc,
  retryLoop (set_exportSave E f) fuel cfg retries delay i dc
  = retryLoop E fuel cfg retries delay i dc.
Proof.
  intros i dc. reflexivity.
Qed.

Lemma configure_set_exportSave (f : exportConfig -> option error)
    (dc : deviceConfig) (file : string) :
  fst (configure (set_exportSave E f) dc file) = fst (configure E dc file).
Proof.
  unfold configure.
  destruct (MainfluxChannels dc) as [|ch0 [|ch1 l]]; try reflexivity.
  destruct (is_data _); rewrite !bind_fst; reflexivity.
Qed.

(** X15: a failure to save the export configuration is not fatal:
    what [Bootstrap] returns does not depend on what [export.Save]
    returns. *)
Theorem X15_export_save_failure_not_fatal (f : exportConfig -> option error)
    (cfg : Config) (file : string) :
  fst (Bootstrap (set_exportSave E f) cfg file) = fst (Bootstrap E cfg file).
Proof.
  unfold Bootstrap.
  destruct (ParseUint (Retries cfg)) as [e|retries]; [reflexivity|].
  destruct (retries =? 0); [reflexivity|].
  destruct (ParseUint (RetryDelaySec cfg)) as [e|delay]; [reflexivity|].
  rewrite !bind_fst, retryLoop_set_exportSave.
  destruct (fst (retryLoop E _ cfg retries delay 0 zeroDevice)); try reflexivity.
  rewrite !bind_fst, configure_set_exportSave. reflexivity.
Qed.

(** *** Filling the export configuration *)

Lemma orElse_idem (s d : string) : orElse (orElse s d) d = orElse s d.
Proof.
  unfold orElse. destruct (String.eqb_spec s ""); [|
    destruct (String.eqb_spec s ""); [contradiction | reflexivity]].
  destruct (String.eqb d ""); reflexivity.
Qed.

Lemma orElse_set (s d : string) :
  negb (String.eqb s "") = true -> orElse s d = s.
Proof. unfold orElse. now destruct (String.eqb s ""). Qed.

(** X16: filling is idempotent: a second pass with the same agent
    configuration changes nothing. *)
Theorem X16_fillExportConfig_idempotent (econf : exportConfig) (c : agentConfig) :
  fillExportConfig (fillExportConfig econf c) c = fillExportConfig econf c.
Proof.
  unfold fillExportConfig. cbn [exMQTT Routes exFile exUsername exPassword
    exClientCert exClientCertKey exClientCertPath exClientPrivKeyPath].
  rewrite !orElse_idem. f_equal.
  rewrite map_map. apply map_ext. intros r. cbn [MqttTopic NatsTopic].
  now rewrite orElse_idem.
Qed.

(** X17: what is set is kept: an export configuration whose MQTT
    credentials, certificate paths and route topics are all set comes
    back unchanged. *)
Theorem X17_fillExportConfig_keeps_what_is_set (econf : exportConfig)
    (c : agentConfig) :
  filled econf = true -> fillExportConfig econf c = econf.
Proof.
  unfold filled. intros H.
  repeat (apply andb_prop in H; destruct H as [H ?]).
  unfold fillExportConfig. rewrite !orElse_set by assumption.
  destruct econf as [m routes fl]. destruct m. cbn in *. f_equal.
  induction routes as [|r routes IH]; [reflexivity|].
  cbn [forallb map] in *.
  match goal with
  | Hr : _ && _ = true |- _ => apply andb_prop in Hr; destruct Hr as [Hr1 Hr2]
  end.
  rewrite (orElse_set _ _ Hr1), (IH Hr2). now destruct r.
Qed.

(** X18: after filling, every route has a topic, and no route was
    added or dropped. *)
Theorem X18_fillExportConfig_routes_have_topics (econf : exportConfig)
    (c : agentConfig) :
  Forall (fun r => MqttTopic r <> "") (Routes (fillExportConfig econf c)) /\
  List.length (Routes (fillExportConfig econf c)) = List.length (Routes econf) /\
  map NatsTopic (Routes (fillExportConfig econf c)) = map NatsTopic (Routes econf).
Proof.
  unfold fillExportConfig. cbn [Routes]. split; [|split].
  - apply Forall_map. apply Forall_forall. intros r _. cbn [MqttTopic].
    unfold orElse. destruct (String.eqb_spec (MqttTopic r) "");
      [discriminate | assumption].
  - apply length_map.
  - rewrite map_map. reflexivity.
Qed.

(** *** The request *)

Lemma getConfig_requests (cfg : Config) (k : nat) :
  Forall (request_of cfg)
    (snd (getConfig E k (ID cfg) (Key cfg) (cfgURL cfg) (SkipTLS cfg))).
Proof.
  unfold getConfig.
  destruct (systemCertPool E); destruct (newRequest E _);
    try (repeat constructor);
    destruct (httpDo E _ _ _ _); try (repeat constructor);
    cbn; destruct (StatusBadRequest <=? _); try (repeat constructor);
    destruct (Body _); try (repeat constructor);
    destruct (unmarshalContent E _); try (repeat constructor);
    cbn; destruct (unmarshalServices E _); try (repeat constructor);
    destruct (unmarshalDevice E _); repeat constructor.
Qed.

Lemma retryLoop_requests (cfg : Config) (retries delay : Z) (fuel : nat) :
  forall i dc,
  Forall (request_of cfg) (snd (retryLoop E fuel cfg retries delay i dc)).
Proof.
  induction fuel as [|fuel IH]; intros i dc; cbn [retryLoop];
    destruct (i <? int retries); try constructor.
  rewrite bind_snd. apply Forall_app. split; [apply getConfig_requests|].
  destruct (fst (getConfig E _ _ _ _ _)) as [e|d]; [|constructor].
  cbn [bind emit]. destruct (i =? int retries - 1).
  - repeat constructor.
  - specialize (IH (i + 1) zeroDevice).
    destruct (retryLoop E fuel cfg retries delay (i + 1) zeroDevice) as [o t].
    cbn [snd List.app] in *. repeat (constructor; [exact I|]). exact IH.
Qed.

Lemma configure_requests (cfg : Config) (dc : deviceConfig) (file : string) :
  Forall (request_of cfg) (snd (configure E dc file)).
Proof.
  unfold configure.
  destruct (MainfluxChannels dc) as [|ch0 [|ch1 l]]; try constructor.
  destruct (is_data _); rewrite !bind_snd; unfold saveExportConfig;
    destruct (stat E _); cbn; try destruct (exportSave E _);
    repeat constructor.
Qed.

(** X19: every request that [Bootstrap] sends goes to the bootstrap URL
    followed by a slash and the identifier of the configuration,
    carries the key as [Thing <key>] in its authorization, and verifies
    TLS or not as the configuration says. *)
Theorem X19_requests_as_configured (cfg : Config) (file : string) :
  Forall (request_of cfg) (snd (Bootstrap E cfg file)).
Proof.
  unfold Bootstrap.
  destruct (ParseUint (Retries cfg)) as [e|retries]; [constructor|].
  destruct (retries =? 0); [repeat constructor|].
  destruct (ParseUint (RetryDelaySec cfg)) as [e|delay]; [constructor|].
  rewrite !bind_snd. cbn [emit snd List.app]. constructor; [exact I|].
  apply Forall_app. split; [apply retryLoop_requests|].
  destruct (fst (retryLoop E _ cfg retries delay 0 zeroDevice)); try constructor.
  rewrite bind_snd. apply Forall_app. split; [apply configure_requests|constructor].
Qed.

(** X20: an answer with a status of 400 or more makes the fetch fail
    with the text of the status as its error, and the fetch ends there:
    its trace is the request, after the log of the error of the
    certificate pool if there is one.  The body is not printed, and
    neither the body nor what the parsers make of it has a part in the
    outcome. *)
Theorem X20_error_status_fails_fetch (cfg : Config) (k : nat) (resp : response) :
  newRequest E (cfgURL cfg ++ "/" ++ ID cfg) = None ->
  httpDo E k (cfgURL cfg ++ "/" ++ ID cfg) ("Thing " ++ Key cfg) (SkipTLS cfg)
  = inr resp ->
  400 <= StatusCode resp ->
  getConfig E k (ID cfg) (Key cfg) (cfgURL cfg) (SkipTLS cfg)
  = (inl (errorsNew (StatusText E (StatusCode resp))),
     (Fetch k
      :: match systemCertPool E with
         | Some msg => [Log "error" msg]
         | None => []
         end
      ++ [Request (cfgURL cfg ++ "/" ++ ID cfg) ("Thing " ++ Key cfg)
            (SkipTLS cfg)])%list).
Proof.
  intros Hreq Hdo Hst. unfold getConfig. rewrite Hreq, Hdo.
  destruct (Z.leb_spec StatusBadRequest (StatusCode resp)) as [_|H];
    [|unfold StatusBadRequest in H; lia].
  destruct (systemCertPool E); reflexivity.
Qed.

(** X21: for a delay of at most 9223372036 seconds the sleep between
    attempts lasts that many seconds; the product with [time.Second]
    does not wrap around. *)
Theorem X21_delay_in_range_is_exact (delay : Z) :
  0 <= delay <= 9223372036 ->
  seconds delay = delay * 1000000000.
Proof.
  intros H. apply seconds_exact; [lia|].
  unfold Second, Int64.max_int, Int64.half. lia.
Qed.

End BootstrapMore.

(** ** The metrics middleware *)

Section MetricsFacts.
Import Metrics.

Variables Cfg Info Ctx Err W : Type.
Variable now : W -> Z.
Variable svc : Service Cfg Info Ctx Err W.

Lemma instrumented_result {A : Type} (method : string) (call : W -> A * W)
    (w : W) (log : list metric) :
  fst (instrumented now method call (w, log)) = fst (call w) /\
  fst (snd (instrumented now method call (w, log))) = snd (call w).
Proof. unfold instrumented. destruct (call w). split; reflexivity. Qed.

Lemma instrumented_log {A : Type} (method : string) (call : W -> A * W)
    (w : W) (log : list metric) :
  snd (snd (instrumented now method call (w, log)))
  = (log ++ [CounterAdd "method" method 1;
             Observe "method" method (now (snd (call w)) - now w)])%list.
Proof. unfold instrumented. destruct (call w). reflexivity. Qed.

Lemma invoke_world (c : call Cfg Ctx) (w : W) (log : list metric) :
  fst (invoke (MetricsMiddleware now svc) c (w, log)) = invoke svc c w.
Proof. destruct c; cbn [invoke MetricsMiddleware]; apply instrumented_result. Qed.

(** X22: the middleware is transparent to the service it wraps: every
    method returns what the method of the service returns, and after
    any sequence of calls the service is in the state in which the same
    calls without the middleware leave it. *)
Theorem X22_middleware_is_transparent (w : W) (log : list metric)
    (uuid cmdStr topic payload : string) (ec : Cfg) (ctx : Ctx)
    (cs : list (call Cfg Ctx)) :
  fst (Execute (MetricsMiddleware now svc) uuid cmdStr (w, log))
  = fst (Execute svc uuid cmdStr w) /\
  fst (Control (MetricsMiddleware now svc) uuid cmdStr (w, log))
  = fst (Control svc uuid cmdStr w) /\
  fst (AddConfig (MetricsMiddleware now svc) ec (w, log))
  = fst (AddConfig svc ec w) /\
  fst (ServiceConfig (MetricsMiddleware now svc) ctx uuid cmdStr (w, log))
  = fst (ServiceConfig svc ctx uuid cmdStr w) /\
  fst (Config (MetricsMiddleware now svc) (w, log)) = fst (Config svc w) /\
  fst (Services (MetricsMiddleware now svc) (w, log)) = fst (Services svc w) /\
  fst (Publish (MetricsMiddleware now svc) topic payload (w, log))
  = fst (Publish svc topic payload w) /\
  fst (Terminal (MetricsMiddleware now svc) topic payload (w, log))
  = fst (Terminal svc topic payload w) /\
  fst (invoke_all (MetricsMiddleware now svc) cs (w, log)) = invoke_all svc cs w.
Proof.
  repeat (split; [apply instrumented_result|]).
  revert w log. induction cs as [|c cs IH]; intros w log; [reflexivity|].
  cbn [invoke_all].
  pose proof (invoke_world c w log) as H.
  destruct (invoke (MetricsMiddleware now svc) c (w, log)) as [w1 log1].
  cbn [fst] in H. subst w1. apply IH.
Qed.

Lemma adds_app (value : string) (a b : list metric) :
  adds value (a ++ b) = (adds value a + adds value b)%nat.
Proof. unfold adds. now rewrite filter_app, length_app. Qed.

Lemma invoke_adds (c : call Cfg Ctx) (w : W) (log : list metric) :
  adds "publish" (snd (invoke (MetricsMiddleware now svc) c (w, log)))
  = (adds "publish" log
     + (if is_publish_call c || is_terminal_call c then 1 else 0))%nat /\
  adds "terminal" (snd (invoke (MetricsMiddleware now svc) c (w, log)))
  = adds "terminal" log.
Proof.
  destruct c; cbn [invoke MetricsMiddleware Execute Control AddConfig
                     ServiceConfig Config Services Publish Terminal];
    rewrite instrumented_log, !adds_app; cbn; split; lia.
Qed.

(** X23: calls of [Terminal] are counted under the method [publish]:
    after any sequence of calls, the counter of [publish] has grown by
    the number of calls of [Publish] and of [Terminal] together, and
    nothing was counted under [terminal]. *)
Theorem X23_terminal_counted_as_publish (cs : list (call Cfg Ctx)) (w : W)
    (log : list metric) :
  adds "publish" (snd (invoke_all (MetricsMiddleware now svc) cs (w, log)))
  = (adds "publish" log + List.length (filter is_publish_call cs)
     + List.length (filter is_terminal_call cs))%nat /\
  adds "terminal" (snd (invoke_all (MetricsMiddleware now svc) cs (w, log)))
  = adds "terminal" log.
Proof.
  revert w log. induction cs as [|c cs IH]; intros w log.
  - cbn [invoke_all snd filter List.length]. split; [lia | reflexivity].
  - cbn [invoke_all].
    destruct (invoke_adds c w log) as (H1 & H2).
    destruct (invoke (MetricsMiddleware now svc) c (w, log)) as [w1 log1].
    cbn [snd] in H1, H2. destruct (IH w1 log1) as (H3 & H4).
    rewrite H3, H4, H1, H2. split; [|reflexivity].
    destruct c;
      cbn [filter is_publish_call is_terminal_call List.length orb]; lia.
Qed.

End MetricsFacts.

(** ** The properties on sample data *)

(** X3 with the default timeout of thirty seconds. *)
Lemma X3_witness :
  ((0 < 30)%nat /\ Z.of_nat 30 * Terminal.second <= Int64.max_int) /\
  exists s0,
    Terminal.NewSession "c0ffee" (Z.of_nat 30 * Terminal.second)
      Samples.connected (inr Samples.freshPty) = (Some s0, None) /\
    Terminal.done_count
      (snd (Terminal.run Samples.encoder
              (filter Terminal.quiet [Terminal.Tick; Terminal.Input Samples.chunk]) s0))
    = if (Terminal.ticks [Terminal.Tick; Terminal.Input Samples.chunk] <? 30)%nat
      then O else 1%nat.
Proof.
  split; [split; [lia | discriminate]|].
  apply (X3_whole_seconds_fire_at_kth_tick Samples.encoder "c0ffee" 30
           Samples.connected Samples.freshPty
           [Terminal.Tick; Terminal.Input Samples.chunk]);
    [lia | discriminate].
Defined.

(** X4 with a timeout of three seconds and a chunk after two ticks. *)
Lemma X4_witness :
  Schedules.idle_below 3 0
    [Terminal.Tick; Terminal.Tick; Terminal.Output Samples.chunk;
     Terminal.Tick; Terminal.Input Samples.chunk; Terminal.Tick] = true /\
  exists s0,
    Terminal.NewSession "c0ffee" (Z.of_nat 3 * Terminal.second)
      Samples.connected (inr Samples.freshPty) = (Some s0, None) /\
    Terminal.done_count
      (snd (Terminal.run Samples.encoder
              [Terminal.Tick; Terminal.Tick; Terminal.Output Samples.chunk;
               Terminal.Tick; Terminal.Input Samples.chunk; Terminal.Tick] s0)) = O /\
    Terminal.timer
      (Terminal.tm
         (fst (Terminal.run Samples.encoder
                 [Terminal.Tick; Terminal.Tick; Terminal.Output Samples.chunk;
                  Terminal.Tick; Terminal.Input Samples.chunk; Terminal.Tick] s0)))
    = Some Terminal.Running.
Proof.
  split; [reflexivity|].
  apply (X4_output_keeps_session_alive Samples.encoder "c0ffee" 3
           Samples.connected Samples.freshPty).
  - intros a b c. eexists. reflexivity.
  - reflexivity.
  - lia.
  - discriminate.
  - reflexivity.
Defined.

(** X5 with a timeout of zero. *)
Lemma X5_witness :
  (0 <= 0 /\
   Int64.min_int
   <= 0 - Z.of_nat (Terminal.ticks
                      [Terminal.Tick; Terminal.Output Samples.chunk; Terminal.Tick])
          * Terminal.second) /\
  exists s0,
    Terminal.NewSession "c0ffee" 0 Samples.connected (inr Samples.freshPty)
    = (Some s0, None) /\
    Terminal.done_count
      (snd (Terminal.run Samples.encoder
              [Terminal.Tick; Terminal.Output Samples.chunk; Terminal.Tick] s0)) = O.
Proof.
  split; [split; discriminate|].
  apply (X5_nonpositive_timeout_never_expires Samples.encoder "c0ffee" 0
           Samples.connected Samples.freshPty
           [Terminal.Tick; Terminal.Output Samples.chunk; Terminal.Tick]);
    discriminate.
Defined.

(** X7 on the sample session, whose [publish] fails. *)
Lemma X7_witness :
  snd (snd (fst (Terminal.Write Samples.encoder Samples.stale Samples.chunk)))
  = Some (Terminal.Err "not connected") /\
  Schedules.publish_count
    (snd (Terminal.run Samples.encoder
            [Terminal.Output Samples.chunk; Terminal.Tick]
            (fst (Terminal.step Samples.encoder (Terminal.Output Samples.chunk)
                    (Terminal.mkSession Samples.stale true 0))))) = O.
Proof.
  split; [reflexivity|].
  apply (X7_failed_delivery_ends_output Samples.encoder
           (Terminal.mkSession Samples.stale true 0) Samples.chunk
           (Terminal.Err "not connected")
           [Terminal.Output Samples.chunk; Terminal.Tick]); reflexivity.
Defined.

(** X9 with input before and after a tick. *)
Lemma X9_witness :
  Terminal.room Samples.freshPty = None /\
  exists s0,
    Terminal.NewSession "c0ffee" (3 * Terminal.second) Samples.connected
      (inr Samples.freshPty) = (Some s0, None) /\
    Terminal.ptmx
      (Terminal.tm
         (fst (Terminal.run Samples.encoder
                 [Terminal.Input Samples.chunk; Terminal.Tick;
                  Terminal.Input Samples.chunk] s0)))
    = Some (Terminal.mkPty
              (Terminal.input Samples.freshPty ++
               Schedules.inputs [Terminal.Input Samples.chunk; Terminal.Tick;
                                 Terminal.Input Samples.chunk])
              None).
Proof.
  split; [reflexivity|].
  apply (X9_input_reaches_pty_in_order Samples.encoder "c0ffee"
           (3 * Terminal.second) Samples.connected Samples.freshPty).
  reflexivity.
Defined.

(** X8 with a retry count that is a word. *)
Lemma X8_witness :
  BootstrapViews.has_nondigit
    (Bootstrap.Retries (BootstrapSamples.config "five")) = true /\
  exists e,
    Bootstrap.Bootstrap BootstrapSamples.unreachable
      (BootstrapSamples.config "five") "config.toml"
    = (Bootstrap.Returned
         (Some (Bootstrap.errorsNewf "Invalid BOOTSTRAP_RETRIES value: %s" e)), []).
Proof.
  split; [reflexivity|].
  apply (X8_retries_not_a_number BootstrapSamples.unreachable
           (BootstrapSamples.config "five") "config.toml").
  right. reflexivity.
Defined.

(** X10 with a delay that carries a unit. *)
Lemma X10_witness :
  (Bootstrap.ParseUint (Bootstrap.Retries MoreSamples.badDelay) = inr 5 /\
   5 <> 0 /\
   BootstrapViews.has_nondigit (Bootstrap.RetryDelaySec MoreSamples.badDelay) = true) /\
  exists e,
    Bootstrap.Bootstrap BootstrapSamples.unreachable MoreSamples.badDelay
      "config.toml"
    = (Bootstrap.Returned
         (Some (Bootstrap.errorsNewf
                  "Invalid BOOTSTRAP_RETRY_DELAY_SECONDS value: %s" e)), []).
Proof.
  split; [split; [reflexivity | split; [discriminate | reflexivity]]|].
  apply (X10_delay_not_a_number BootstrapSamples.unreachable MoreSamples.badDelay
           "config.toml" 5); [reflexivity | discriminate | right; reflexivity].
Defined.

(** X11 with a retry count of 2^63 and a service that would answer. *)
Lemma X11_witness :
  (Bootstrap.ParseUint
     (Bootstrap.Retries (BootstrapSamples.config "9223372036854775808"))
   = inr 9223372036854775808 /\
   Int64.max_int < 9223372036854775808) /\
  Bootstrap.Bootstrap MoreSamples.provisioned
    (BootstrapSamples.config "9223372036854775808") "config.toml"
  = (Bootstrap.Returned (Some Bootstrap.ErrMalformedEntity),
     [Bootstrap.Log "info" "Requesting config"]).
Proof.
  split; [split; reflexivity|].
  apply (X11_retries_beyond_int MoreSamples.provisioned
           (BootstrapSamples.config "9223372036854775808") "config.toml"
           9223372036854775808 10); reflexivity.
Defined.

(** X12 with a service that answers the second request. *)
Lemma X12_witness :
  (Z.of_nat 1 < Bootstrap.int 5 /\
   Bootstrap.failed
     (Bootstrap.fetch MoreSamples.provisioned (BootstrapSamples.config "5") 0) = true /\
   Bootstrap.fetch MoreSamples.provisioned (BootstrapSamples.config "5") 1
   = inr MoreSamples.twoChannels) /\
  Bootstrap.timeline
    (snd (Bootstrap.Bootstrap MoreSamples.provisioned (BootstrapSamples.config "5")
            "config.toml"))
  = (Bootstrap.failed_attempts (Bootstrap.seconds 10) 0 1 ++ [Bootstrap.Fetch 1])%list /\
  Bootstrap.fetches
    (snd (Bootstrap.Bootstrap MoreSamples.provisioned (BootstrapSamples.config "5")
            "config.toml")) = 2%nat.
Proof.
  split; [split; [reflexivity | split; reflexivity]|].
  apply (X12_stops_at_first_success MoreSamples.provisioned
           (BootstrapSamples.config "5") "config.toml" 5 10 1
           MoreSamples.twoChannels); try reflexivity.
  intros k Hk. assert (k = O) by lia. subst k. reflexivity.
Defined.

(** X13 with the same service: the first channel is the data channel. *)
Lemma X13_witness :
  Bootstrap.MainfluxChannels MoreSamples.twoChannels
  = [Bootstrap.mkChannel "chan-d" [("type", Bootstrap.AnyString "data")];
     Bootstrap.mkChannel "chan-c" [("type", Bootstrap.AnyString "control")]] /\
  exists c,
    fst (Bootstrap.Bootstrap MoreSamples.provisioned (BootstrapSamples.config "5")
           "config.toml")
    = Bootstrap.Returned (Bootstrap.SaveConfig MoreSamples.provisioned c) /\
    BootstrapViews.agent_saves
      (snd (Bootstrap.Bootstrap MoreSamples.provisioned
              (BootstrapSamples.config "5") "config.toml"))
    = [Bootstrap.SaveAgent c] /\
    Bootstrap.Channels c = Bootstrap.mkChan "chan-c" "chan-d".
Proof.
  split; [reflexivity|].
  assert (Hfail : forall k, (k < 1)%nat ->
            Bootstrap.failed
              (Bootstrap.fetch MoreSamples.provisioned
                 (BootstrapSamples.config "5") k) = true).
  { intros k Hk. assert (k = O) by lia. subst k. reflexivity. }
  destruct (X13_saves_agent_configuration MoreSamples.provisioned
              (BootstrapSamples.config "5") "config.toml" 5 10 1
              MoreSamples.twoChannels
              (Bootstrap.mkChannel "chan-d" [("type", Bootstrap.AnyString "data")])
              (Bootstrap.mkChannel "chan-c" [("type", Bootstrap.AnyString "control")])
              [] eq_refl eq_refl eq_refl Hfail eq_refl eq_refl)
    as (c & H1 & H2 & H3 & _).
  exists c. split; [exact H1|]. split; [exact H2 | exact H3].
Defined.

(** X14 with an export configuration file that is there. *)
Lemma X14_witness :
  (Z.of_nat 1 < Bootstrap.int 5 /\
   Bootstrap.fetch MoreSamples.provisioned (BootstrapSamples.config "5") 1
   = inr MoreSamples.twoChannels /\
   Bootstrap.stat MoreSamples.provisioned
     (Bootstrap.orElse
        (Bootstrap.exFile (Bootstrap.Export (Bootstrap.SvcsConf MoreSamples.twoChannels)))
        Bootstrap.exportConfigFile) = true) /\
  BootstrapViews.export_saves
    (snd (Bootstrap.Bootstrap MoreSamples.provisioned (BootstrapSamples.config "5")
            "config.toml")) = [].
Proof.
  split; [split; [reflexivity | split; reflexivity]|].
  assert (Hfail : forall k, (k < 1)%nat ->
            Bootstrap.failed
              (Bootstrap.fetch MoreSamples.provisioned
                 (BootstrapSamples.config "5") k) = true).
  { intros k Hk. assert (k = O) by lia. subst k. reflexivity. }
  apply (proj1 (X14_existing_export_file_kept MoreSamples.provisioned
                  (BootstrapSamples.config "5") "config.toml" 5 10 1
                  MoreSamples.twoChannels eq_refl eq_refl eq_refl Hfail eq_refl)).
  reflexivity.
Defined.

(** X17 with an export configuration that is complete. *)
Lemma X17_witness :
  BootstrapViews.filled MoreSamples.complete = true /\
  Bootstrap.fillExportConfig MoreSamples.complete Bootstrap.zeroAgent
  = MoreSamples.complete.
Proof.
  split; [reflexivity|].
  apply (X17_fillExportConfig_keeps_what_is_set MoreSamples.complete
           Bootstrap.zeroAgent).
  reflexivity.
Defined.

(** X20 with a service that answers 404. *)
Lemma X20_witness :
  400 <= Bootstrap.StatusCode (Bootstrap.mkResponse 404 (inr "")) /\
  Bootstrap.getConfig MoreSamples.notFound 0 "id-1" "key-1"
    "http://localhost:9013/things/bootstrap" true
  = (inl (Bootstrap.errorsNew "Not Found"),
     [Bootstrap.Fetch 0;
      Bootstrap.Request "http://localhost:9013/things/bootstrap/id-1"
        "Thing key-1" true]).
Proof.
  split; [discriminate|].
  apply (X20_error_status_fails_fetch MoreSamples.notFound
           (BootstrapSamples.config "5") 0 (Bootstrap.mkResponse 404 (inr "")));
    [reflexivity | reflexivity | discriminate].
Defined.

(** X21 with the default delay of ten seconds. *)
Lemma X21_witness :
  0 <= 10 <= 9223372036 /\ Bootstrap.seconds 10 = 10 * 1000000000.
Proof.
  split; [split; discriminate|].
  apply (X21_delay_in_range_is_exact 10). split; discriminate.
Defined.
